(** * LoadingViewModel (ui/viewmodel/loading_view.cpp)

    A shallow embedding of the loading view-model of the Beam wallet UI:
    the two progress counters, the progress ratchet, the time estimate and
    the classification of wallet errors.

    - C++ [double] values are IEEE-754 binary64 numbers, modelled by
      [spec_float] with precision 53 and maximal exponent 1024;
    - [int] counters are integers of [Z]: the file only stores, compares
      and converts them to [double], which is exact for every [int];
    - [beam::Timestamp] values are unsigned 64-bit integers, held in [Z]
      with the wrap-around of the subtraction written out;
    - Qt signals emitted by a slot are collected, in order, in a list. *)

From Stdlib Require Import ZArith List String Ascii Bool Lia DecimalString Sorted.
From Stdlib Require Import SpecFloat.
Import ListNotations.

Local Open Scope Z_scope.

(** ** Doubles *)

Module Double.

Definition prec : Z := 53.
Definition emax : Z := 1024.

Definition double : Type := spec_float.

(** Conversion of an integer to [double] (exact for every [int] and for
    every timestamp difference the code converts). *)
Definition of_Z (z : Z) : double := binary_normalize prec emax z 0 false.

Definition zero : double := S754_zero false.
Definition one : double := of_Z 1.
Definition two : double := of_Z 2.
Definition sixty : double := of_Z 60.
Definition hundred : double := of_Z 100.

Definition add : double -> double -> double := SFadd prec emax.
Definition sub : double -> double -> double := SFsub prec emax.
Definition mul : double -> double -> double := SFmul prec emax.
Definition div : double -> double -> double := SFdiv prec emax.

Definition ltb : double -> double -> bool := SFltb.
Definition leb : double -> double -> bool := SFleb.
Definition eqb : double -> double -> bool := SFeqb.
(** [a > b] of C++. *)
Definition gtb (a b : double) : bool := SFltb b a.

(** [std::min(a, b)] is [(b < a) ? b : a]. *)
Definition min (a b : double) : double := if ltb b a then b else a.

(** [ceil] of <cmath>: the least integral value not below the argument;
    zeros, infinities and NaN are returned as they are. *)
Definition ceil (x : double) : double :=
  match x with
  | S754_finite s m (Zneg k) =>
      let d := Z.pow_pos 2 k in
      if s then binary_normalize prec emax (- (Zpos m / d)) 0 true
      else binary_normalize prec emax ((Zpos m + d - 1) / d) 0 false
  | _ => x
  end.

Definition is_nan (x : double) : bool :=
  match x with S754_nan => true | _ => false end.

(** The closed unit interval, with the comparisons of the machine. *)
Definition in_unit (x : double) : bool := leb zero x && leb x one.

End Double.

Import Double.

(** ** Timestamps *)

(** [beam::Timestamp] is declared outside this file (utility/common.h) as
    [uint64_t]: arithmetic on it is modulo [2^64]. *)
Definition Timestamp : Type := Z.

Definition wrap64 (z : Z) : Z := z mod 2 ^ 64.

(** [Timestamp kMaxEstimate = 2 * 60 * 60;] *)
Definition kMaxEstimate : Timestamp := 2 * 60 * 60.

(** [double kSecondsInMinute = 60.;] *)
Definition kSecondsInMinute : double := sixty.

(** ** Collaborators *)

(** Modelled from the spec: [beam::wallet::ErrorType] is declared outside
    this file.  The spec calls it a closed enumeration of error kinds; the
    four enumerators that this file names are kept, and [OtherErrorType]
    stands for every other enumerator, told apart by its numeric value. *)
Inductive ErrorType : Type :=
| NodeProtocolIncompatible
| ConnectionAddrInUse
| ConnectionRefused
| HostResolvedError
| OtherErrorType (code : N).

(** The arguments of a [QString::asprintf] call. *)
Inductive PrintfArg : Type :=
| ArgInt (z : Z)
| ArgDouble (d : double)
| ArgStr (s : string).

(** Qt and the wallet model are outside this file: the translation lookup
    [qtTrId], the formatter [QString::asprintf] and the error text
    [WalletModel::GetErrorString] are taken as they come. *)
Class Texts : Type := {
  qtTrId : string -> string;
  asprintf : string -> list PrintfArg -> string;
  GetErrorString : ErrorType -> string
}.

(** What the slots read from the application at the time they run:
    [getTimestamp()] and [AppModel::getInstance().getSettings().getRunLocalNode()]. *)
Record World : Type := mkWorld {
  getTimestamp : Timestamp;
  getRunLocalNode : bool
}.

(** ** The object *)

Record LoadingViewModel : Type := mkLoadingViewModel {
  m_progress : double;
  m_nodeTotal : Z;
  m_nodeDone : Z;
  m_total : Z;
  m_done : Z;
  m_hasLocalNode : bool;
  m_isCreating : bool;
  m_progressMessage : string;
  m_lastProgress : double;
  m_lastEstimateSeconds : double;
  m_lastUpdateTimestamp : Timestamp;
  m_updateTimestamp : Timestamp
}.

Definition set_progress (v : double) (o : LoadingViewModel) : LoadingViewModel :=
  mkLoadingViewModel v (m_nodeTotal o) (m_nodeDone o) (m_total o) (m_done o)
    (m_hasLocalNode o) (m_isCreating o) (m_progressMessage o) (m_lastProgress o)
    (m_lastEstimateSeconds o) (m_lastUpdateTimestamp o) (m_updateTimestamp o).

Definition set_node (done total : Z) (o : LoadingViewModel) : LoadingViewModel :=
  mkLoadingViewModel (m_progress o) total done (m_total o) (m_done o)
    (m_hasLocalNode o) (m_isCreating o) (m_progressMessage o) (m_lastProgress o)
    (m_lastEstimateSeconds o) (m_lastUpdateTimestamp o) (m_updateTimestamp o).

Definition set_wallet (done total : Z) (o : LoadingViewModel) : LoadingViewModel :=
  mkLoadingViewModel (m_progress o) (m_nodeTotal o) (m_nodeDone o) total done
    (m_hasLocalNode o) (m_isCreating o) (m_progressMessage o) (m_lastProgress o)
    (m_lastEstimateSeconds o) (m_lastUpdateTimestamp o) (m_updateTimestamp o).

Definition set_isCreating (v : bool) (o : LoadingViewModel) : LoadingViewModel :=
  mkLoadingViewModel (m_progress o) (m_nodeTotal o) (m_nodeDone o) (m_total o) (m_done o)
    (m_hasLocalNode o) v (m_progressMessage o) (m_lastProgress o)
    (m_lastEstimateSeconds o) (m_lastUpdateTimestamp o) (m_updateTimestamp o).

Definition set_progressMessage (v : string) (o : LoadingViewModel) : LoadingViewModel :=
  mkLoadingViewModel (m_progress o) (m_nodeTotal o) (m_nodeDone o) (m_total o) (m_done o)
    (m_hasLocalNode o) (m_isCreating o) v (m_lastProgress o)
    (m_lastEstimateSeconds o) (m_lastUpdateTimestamp o) (m_updateTimestamp o).

Definition set_lastProgress (v : double) (o : LoadingViewModel) : LoadingViewModel :=
  mkLoadingViewModel (m_progress o) (m_nodeTotal o) (m_nodeDone o) (m_total o) (m_done o)
    (m_hasLocalNode o) (m_isCreating o) (m_progressMessage o) v
    (m_lastEstimateSeconds o) (m_lastUpdateTimestamp o) (m_updateTimestamp o).

Definition set_lastEstimateSeconds (v : double) (o : LoadingViewModel) : LoadingViewModel :=
  mkLoadingViewModel (m_progress o) (m_nodeTotal o) (m_nodeDone o) (m_total o) (m_done o)
    (m_hasLocalNode o) (m_isCreating o) (m_progressMessage o) (m_lastProgress o)
    v (m_lastUpdateTimestamp o) (m_updateTimestamp o).

Definition set_lastUpdateTimestamp (v : Timestamp) (o : LoadingViewModel) : LoadingViewModel :=
  mkLoadingViewModel (m_progress o) (m_nodeTotal o) (m_nodeDone o) (m_total o) (m_done o)
    (m_hasLocalNode o) (m_isCreating o) (m_progressMessage o) (m_lastProgress o)
    (m_lastEstimateSeconds o) v (m_updateTimestamp o).

Definition set_updateTimestamp (v : Timestamp) (o : LoadingViewModel) : LoadingViewModel :=
  mkLoadingViewModel (m_progress o) (m_nodeTotal o) (m_nodeDone o) (m_total o) (m_done o)
    (m_hasLocalNode o) (m_isCreating o) (m_progressMessage o) (m_lastProgress o)
    (m_lastEstimateSeconds o) (m_lastUpdateTimestamp o) v.

(** The signals the slots of this file emit. *)
Inductive Signal : Type :=
| syncCompleted
| progressChanged
| progressMessageChanged
| isCreatingChanged
| walletError (title message : string)
| walletReseted.

Definition is_walletError (s : Signal) : bool :=
  match s with walletError _ _ => true | _ => false end.

Definition Signal_eqb (a b : Signal) : bool :=
  match a, b with
  | syncCompleted, syncCompleted
  | progressChanged, progressChanged
  | progressMessageChanged, progressMessageChanged
  | isCreatingChanged, isCreatingChanged
  | walletReseted, walletReseted => true
  | walletError t1 m1, walletError t2 m2 => String.eqb t1 t2 && String.eqb m1 m2
  | _, _ => false
  end.

(** Number of occurrences of a signal in a trace. *)
Definition fired (s : Signal) (out : list Signal) : nat :=
  List.length (List.filter (Signal_eqb s) out).

(** ** Member functions as state transformers

    A member function takes the object, and returns its result, the object
    after the call and the signals emitted during the call. *)

Definition M (A : Type) : Type := LoadingViewModel -> A * LoadingViewModel * list Signal.

Definition ret {A} (a : A) : M A := fun o => (a, o, []).

Definition bind {A B} (m : M A) (k : A -> M B) : M B :=
  fun o =>
    let '(a, o1, out1) := m o in
    let '(b, o2, out2) := k a o1 in
    (b, o2, out1 ++ out2).

Definition this : M LoadingViewModel := fun o => (o, o, []).
Definition assign (f : LoadingViewModel -> LoadingViewModel) : M unit :=
  fun o => (tt, f o, []).
Definition emit (s : Signal) : M unit := fun o => (tt, o, [s]).

Declare Scope member_scope.
Delimit Scope member_scope with member.
Notation "x <- m ;; k" := (bind m (fun x => k))
  (at level 61, m at next level, right associativity) : member_scope.
Notation "m ;;; k" := (bind m (fun _ => k))
  (at level 61, right associativity) : member_scope.

Definition object_after {A} (r : A * LoadingViewModel * list Signal) : LoadingViewModel :=
  snd (fst r).
Definition emitted {A} (r : A * LoadingViewModel * list Signal) : list Signal :=
  snd r.
Definition result {A} (r : A * LoadingViewModel * list Signal) : A :=
  fst (fst r).

(** ** The slots and member functions of loading_view.cpp *)

Section Slots.

Local Open Scope string_scope.
Local Open Scope Z_scope.
Local Open Scope member_scope.

Context {T : Texts}.

(** The constructor.  The members it does not list are initialised by
    the class declaration, which is outside this file: they are taken
    as arguments. *)
Definition LoadingViewModel_new (w : World)
    (lastProgress lastEstimateSeconds : double)
    (lastUpdateTimestamp updateTimestamp : Timestamp) : LoadingViewModel :=
  {| m_progress := zero;
     m_nodeTotal := 0;
     m_nodeDone := 0;
     m_total := 0;
     m_done := 0;
     m_hasLocalNode := getRunLocalNode w;
     m_isCreating := false;
     m_progressMessage := "";
     m_lastProgress := lastProgress;
     m_lastEstimateSeconds := lastEstimateSeconds;
     m_lastUpdateTimestamp := lastUpdateTimestamp;
     m_updateTimestamp := updateTimestamp |}.

Definition getProgress : M double :=
  o <- this ;; ret (m_progress o).

Definition setProgress (value : double) : M unit :=
  o <- this ;;
  if gtb value (m_progress o) then
    assign (set_lastProgress (m_progress o)) ;;;
    assign (set_progress value) ;;;
    emit progressChanged
  else ret tt.

Definition getProgressMessage : M string :=
  o <- this ;; ret (m_progressMessage o).

Definition setProgressMessage (value : string) : M unit :=
  o <- this ;;
  if negb (String.eqb (m_progressMessage o) value) then
    assign (set_progressMessage value) ;;;
    emit progressMessageChanged
  else ret tt.

Definition setIsCreating (value : bool) : M unit :=
  o <- this ;;
  if negb (Bool.eqb (m_isCreating o) value) then
    assign (set_isCreating value) ;;;
    emit isCreatingChanged
  else ret tt.

Definition getIsCreating : M bool :=
  o <- this ;; ret (m_isCreating o).

Definition getSecondsFromLastUpdate (w : World) : M Timestamp :=
  assign (set_updateTimestamp (getTimestamp w)) ;;;
  o <- this ;;
  let timeDiff := wrap64 (m_updateTimestamp o - m_lastUpdateTimestamp o) in
  assign (set_lastUpdateTimestamp (m_updateTimestamp o)) ;;;
  ret (if kMaxEstimate <? timeDiff then kMaxEstimate else timeDiff).

(** The first half of [getEstimateStr]: the projection and its
    smoothing, as the value stored in [m_lastEstimateSeconds]. *)
Definition estimateSeconds_of (secondsFromLastUpdate : Timestamp)
    (progress lastProgress lastEstimateSeconds : double) : double :=
  let estimateSeconds :=
    div (of_Z secondsFromLastUpdate) (sub progress lastProgress) in
  if gtb (div estimateSeconds lastEstimateSeconds) two
  then div (add estimateSeconds lastEstimateSeconds) two
  else estimateSeconds.

(** The second half of [getEstimateStr]: the text. *)
Definition estimateText (estimateSeconds : double) : string :=
  let '(value, units) :=
    if gtb estimateSeconds kSecondsInMinute
    then (ceil (div estimateSeconds kSecondsInMinute),
          qtTrId "loading-view-estimate-minutes")
    else ((if gtb estimateSeconds zero then ceil estimateSeconds else one),
          qtTrId "loading-view-estimate-seconds") in
  let estimateSubStr := asprintf "%.0lf %s" [ArgDouble value; ArgStr units] in
  " " ++ asprintf (qtTrId "loading-view-estimate-time") [ArgStr estimateSubStr].

Definition getEstimateStr (secondsFromLastUpdate : Timestamp) (progress : double)
    : M string :=
  o <- this ;;
  let estimateSeconds :=
    estimateSeconds_of secondsFromLastUpdate progress
      (m_lastProgress o) (m_lastEstimateSeconds o) in
  assign (set_lastEstimateSeconds estimateSeconds) ;;;
  ret (estimateText estimateSeconds).

(** Lines 78-107 of [updateProgress]: the choice between the two
    counters.  The result is the local [progress] and [progressMessage]. *)
Definition updateProgress_counters (w : World) : M (double * string) :=
  o <- this ;;
  let bLocalNode := getRunLocalNode w in
  if bLocalNode && ((m_nodeTotal o =? 0) || (m_nodeDone o <? m_nodeTotal o)) then
    ret ((if 0 <? m_nodeTotal o
          then min one (div (of_Z (m_nodeDone o)) (of_Z (m_nodeTotal o)))
          else zero),
         qtTrId "loading-view-download-blocks")
  else
    let progress :=
      if 0 <? m_total o
      then min one (div (of_Z (m_done o)) (of_Z (m_total o)))
      else zero in
    if m_done o <? m_total o then
      ret (progress,
           asprintf (qtTrId "loading-view-scaning-utxo")
                    [ArgInt (m_done o); ArgInt (m_total o)])
    else
      emit syncCompleted ;;;
      ret (progress, "").

Definition updateProgress (w : World) : M unit :=
  pm <- updateProgress_counters w ;;
  let '(progress, progressMessage) := pm in
  s <- getSecondsFromLastUpdate w ;;
  progressMessage <-
    (if gtb progress zero then
       est <- getEstimateStr s progress ;;
       ret (progressMessage
              ++ asprintf " %.2lf%%" [ArgDouble (mul progress hundred)]
              ++ est)
     else ret progressMessage) ;;
  setProgressMessage progressMessage ;;;
  setProgress progress.

Definition onSyncProgressUpdated (w : World) (done total : Z) : M unit :=
  assign (set_wallet done total) ;;;
  updateProgress w.

Definition onNodeSyncProgressUpdated (w : World) (done total : Z) : M unit :=
  assign (set_node done total) ;;;
  updateProgress w.

Definition onNodeConnectionChanged (isNodeConnected : bool) : M unit :=
  ret tt.

Definition onWalletReseted : M unit :=
  emit walletReseted.

(** How a call of [onGetWalletError] ends: it returns, or the failed
    [assert] terminates the process. *)
Inductive Outcome : Type :=
| Returns (o : LoadingViewModel) (out : list Signal)
| AssertionFailed (what : string).

Definition returns {A} (r : A * LoadingViewModel * list Signal) : Outcome :=
  Returns (object_after r) (emitted r).

(** The part of [onGetWalletError] after the creation-mode block. *)
Definition onGetWalletError_tail (w : World) (error : ErrorType) : M unit :=
  match error with
  | ConnectionAddrInUse =>
      emit (walletError (qtTrId "loading-view-connection-error")
                        (GetErrorString error))
  | _ =>
      updateProgress w ;;;
      emit syncCompleted
  end.

(** [ndebug] tells whether the program was built with [NDEBUG], which
    turns [assert] into nothing. *)
Definition onGetWalletError (ndebug : bool) (w : World) (error : ErrorType)
    (o : LoadingViewModel) : Outcome :=
  if m_isCreating o then
    match error with
    | NodeProtocolIncompatible =>
        returns (emit (walletError (qtTrId "loading-view-protocol-error")
                                   (GetErrorString error)) o)
    | ConnectionAddrInUse
    | ConnectionRefused
    | HostResolvedError =>
        returns (emit (walletError (qtTrId "loading-view-connection-error")
                                   (GetErrorString error)) o)
    | _ =>
        if ndebug then returns (onGetWalletError_tail w error o)
        else AssertionFailed "Unsupported error code!"
    end
  else returns (onGetWalletError_tail w error o).

End Slots.

(** ** A concrete rendering of the texts

    The source texts of the translation identifiers (the [//%] comments of
    the file) and a formatter for the conversions the file uses: [%d],
    [%s], [%%] and [%.Nlf].  Used to run the slots on concrete inputs. *)

Module English.

Local Open Scope string_scope.

Definition qtTrId (id : string) : string :=
  if String.eqb id "loading-view-download-blocks" then "Downloading blocks"
  else if String.eqb id "loading-view-scaning-utxo" then "Scanning UTXO %d/%d"
  else if String.eqb id "loading-view-estimate-minutes" then "min."
  else if String.eqb id "loading-view-estimate-seconds" then "sec."
  else if String.eqb id "loading-view-estimate-time" then "Estimate time: %s"
  else if String.eqb id "loading-view-protocol-error" then "Incompatible peer"
  else if String.eqb id "loading-view-connection-error" then "Connection error"
  else id.

Definition decimal (z : Z) : string :=
  DecimalString.NilZero.string_of_int (Z.to_int z).

Fixpoint pad_left (n : nat) (s : string) : string :=
  match n with
  | O => s
  | S k => if Nat.ltb (String.length s) n then pad_left k ("0" ++ s) else s
  end.

(** The nearest integer to [m * 2^e * 10^n], ties to even. *)
Definition scaled (m : positive) (e : Z) (n : nat) : Z :=
  let num := Zpos m * 10 ^ Z.of_nat n in
  match e with
  | Zneg k =>
      let den := Z.pow_pos 2 k in
      let q := num / den in
      let r := num mod den in
      if (den <? 2 * r) || ((den =? 2 * r) && Z.odd q) then q + 1 else q
  | _ => num * 2 ^ e
  end%Z.

Definition fixed (n : nat) (x : double) : string :=
  let body (q : Z) :=
    let p := (10 ^ Z.of_nat n)%Z in
    decimal (q / p) ++
    match n with
    | O => ""
    | _ => "." ++ pad_left n (decimal (q mod p))
    end in
  match x with
  | S754_nan => "nan"
  | S754_infinity s => if s then "-inf" else "inf"
  | S754_zero s => (if s then "-" else "") ++ body 0%Z
  | S754_finite s m e => (if s then "-" else "") ++ body (scaled m e n)
  end.

Definition digit_of (c : ascii) : nat := Nat.sub (nat_of_ascii c) 48.

Fixpoint asprintf (f : string) (args : list PrintfArg) : string :=
  match f with
  | EmptyString => ""
  | String "%" (String "%" r) => "%" ++ asprintf r args
  | String "%" (String "d" r) =>
      match args with
      | ArgInt z :: a => decimal z ++ asprintf r a
      | _ => asprintf r args
      end
  | String "%" (String "s" r) =>
      match args with
      | ArgStr s :: a => s ++ asprintf r a
      | _ => asprintf r args
      end
  | String "%" (String "." (String n (String "l" (String "f" r)))) =>
      match args with
      | ArgDouble d :: a => fixed (digit_of n) d ++ asprintf r a
      | _ => asprintf r args
      end
  | String c r => String c (asprintf r args)
  end.

Definition GetErrorString (error : ErrorType) : string :=
  match error with
  | NodeProtocolIncompatible => "Node protocol version is incompatible with the wallet protocol."
  | ConnectionAddrInUse => "Address is already in use."
  | ConnectionRefused => "Connection is refused."
  | HostResolvedError => "Unable to resolve node address."
  | OtherErrorType _ => "Unexpected error!"
  end.

Definition texts : Texts :=
  Build_Texts qtTrId asprintf GetErrorString.

End English.

(** ** Vocabulary of the properties *)

Section Vocabulary.

Local Open Scope string_scope.
Local Open Scope Z_scope.

Context {T : Texts}.

(** The candidate fraction that [updateProgress] computes from the
    counters of the object. *)
Definition rawFraction (w : World) (o : LoadingViewModel) : double :=
  fst (result (updateProgress_counters w o)).

(** The seconds that [updateProgress] passes to the estimate. *)
Definition elapsed (w : World) (o : LoadingViewModel) : Timestamp :=
  result (getSecondsFromLastUpdate w o).

(** The fractions observed after each call of a sequence of
    [setProgress] calls. *)
Fixpoint observed (values : list double) (o : LoadingViewModel) : list double :=
  match values with
  | [] => []
  | v :: rest =>
      let o' := object_after (setProgress v o) in
      m_progress o' :: observed rest o'
  end.

(** Two calls in a row. *)
Definition setProgressMessage_twice (value : string) : M unit :=
  bind (setProgressMessage value) (fun _ => setProgressMessage value).

(** The phase selection as the specification words it: the phase, the
    raw fraction and whether the scan is terminal, from the local-source
    flag and the two pairs of counters. *)
Inductive Phase : Type := Downloading | Scanning.

Definition fraction_of (doneUnits totalUnits : Z) : double :=
  if 0 <? totalUnits then min one (div (of_Z doneUnits) (of_Z totalUnits)) else zero.

Definition selectPhase (hasLocalSource : bool)
    (nodeDone nodeTotal scanDone scanTotal : Z) : Phase * double * bool :=
  if hasLocalSource && ((nodeTotal =? 0) || (nodeDone <? nodeTotal))
  then (Downloading, fraction_of nodeDone nodeTotal, false)
  else (Scanning, fraction_of scanDone scanTotal, scanTotal <=? scanDone).

(** The text that stands for a phase in [progressMessage] before the
    percentage and the estimate are appended. *)
Definition phaseText (phase : Phase) (isTerminal : bool) (scanDone scanTotal : Z)
    : string :=
  match phase with
  | Downloading => qtTrId "loading-view-download-blocks"
  | Scanning =>
      if isTerminal then ""
      else asprintf (qtTrId "loading-view-scaning-utxo")
                    [ArgInt scanDone; ArgInt scanTotal]
  end.

(** [clamp x lo hi] of the specification. *)
Definition clamp (x lo hi : Z) : Z := Z.max lo (Z.min x hi).

(** The smoothing step as the specification words it. *)
Definition smoothed (estimateSeconds lastEstimateSeconds : double) : double :=
  if gtb (div estimateSeconds lastEstimateSeconds) two
  then div (add estimateSeconds lastEstimateSeconds) two
  else estimateSeconds.

(** The error kinds that the creation-mode switch names. *)
Definition mapped_in_creation (error : ErrorType) : bool :=
  match error with
  | NodeProtocolIncompatible | ConnectionAddrInUse
  | ConnectionRefused | HostResolvedError => true
  | OtherErrorType _ => false
  end.

(** The title of the [walletError] signal for a mapped kind. *)
Definition creation_title (error : ErrorType) : string :=
  match error with
  | NodeProtocolIncompatible => qtTrId "loading-view-protocol-error"
  | _ => qtTrId "loading-view-connection-error"
  end.

(** The calls that reach the object, and runs of them.  [ndebug] is the
    build option that removes [assert]. *)
Inductive Call : Type :=
| call_onSyncProgressUpdated (w : World) (done total : Z)
| call_onNodeSyncProgressUpdated (w : World) (done total : Z)
| call_onGetWalletError (w : World) (error : ErrorType)
| call_onNodeConnectionChanged (isNodeConnected : bool)
| call_onWalletReseted
| call_setIsCreating (value : bool)
| call_setProgressMessage (value : string)
| call_setProgress (value : double).

Definition exec (ndebug : bool) (c : Call) (o : LoadingViewModel) : Outcome :=
  match c with
  | call_onSyncProgressUpdated w done total => returns (onSyncProgressUpdated w done total o)
  | call_onNodeSyncProgressUpdated w done total =>
      returns (onNodeSyncProgressUpdated w done total o)
  | call_onGetWalletError w error => onGetWalletError ndebug w error o
  | call_onNodeConnectionChanged b => returns (onNodeConnectionChanged b o)
  | call_onWalletReseted => returns (onWalletReseted o)
  | call_setIsCreating value => returns (setIsCreating value o)
  | call_setProgressMessage value => returns (setProgressMessage value o)
  | call_setProgress value => returns (setProgress value o)
  end.

Fixpoint run (ndebug : bool) (calls : list Call) (o : LoadingViewModel) : Outcome :=
  match calls with
  | [] => Returns o []
  | c :: rest =>
      match exec ndebug c o with
      | Returns o1 out1 =>
          match run ndebug rest o1 with
          | Returns o2 out2 => Returns o2 (out1 ++ out2)%list
          | AssertionFailed what => AssertionFailed what
          end
      | AssertionFailed what => AssertionFailed what
      end
  end.

(** [updateProgress] is the only caller of [setProgress] in this file,
    and its candidates are never above one; a direct call is followed
    under the same condition. *)
Definition candidate_capped (c : Call) : Prop :=
  match c with
  | call_setProgress value => leb value one = true
  | _ => True
  end.

Definition fraction_in_unit (r : Outcome) : Prop :=
  match r with
  | Returns o _ => in_unit (m_progress o) = true
  | AssertionFailed _ => True
  end.

End Vocabulary.

(** ** Sample objects and runs *)

Module Samples.

Definition texts : Texts := English.texts.

Definition half : double := div one two.
Definition quarter : double := div one (of_Z 4).

(** A fresh object, with a local node, at time 1000. *)
Definition fresh : LoadingViewModel :=
  LoadingViewModel_new (mkWorld 1000 true) zero zero 1000 1000.

(** A fresh object without a local node. *)
Definition fresh_remote : LoadingViewModel :=
  LoadingViewModel_new (mkWorld 1000 false) zero zero 1000 1000.

(** Three node updates, 3/10, 5/10 and 10/10, ten seconds apart. *)
Definition node_3_10 : LoadingViewModel :=
  object_after (onNodeSyncProgressUpdated (T := texts) (mkWorld 1010 true) 3 10 fresh).
Definition node_5_10 : LoadingViewModel :=
  object_after (onNodeSyncProgressUpdated (T := texts) (mkWorld 1020 true) 5 10 node_3_10).
Definition node_10_10 : LoadingViewModel :=
  object_after (onNodeSyncProgressUpdated (T := texts) (mkWorld 1030 true) 10 10 node_5_10).

(** The wallet then reports 3/10: the counters as [onSyncProgressUpdated]
    stores them before it calls [updateProgress]. *)
Definition scan_3_10 : LoadingViewModel := set_wallet 3 10 node_10_10.

(** An object in creation mode. *)
Definition creating : LoadingViewModel := set_isCreating true fresh.

(** An object whose last update was at time 10. *)
Definition updated_at_10 : LoadingViewModel := set_lastUpdateTimestamp 10 fresh.

(** An object with a stored estimate of 10 seconds. *)
Definition estimate_10 : LoadingViewModel := set_lastEstimateSeconds (of_Z 10) fresh.

(** A remote wallet that has scanned 3 of 10. *)
Definition remote_3_10 : LoadingViewModel :=
  object_after (onSyncProgressUpdated (T := texts) (mkWorld 1010 false) 3 10 fresh_remote).

End Samples.

(** ** Vocabulary of the further properties *)

Section FurtherVocabulary.

Local Open Scope string_scope.
Local Open Scope Z_scope.

Context {T : Texts}.

(** The local [progressMessage] that [updateProgress] hands to
    [setProgressMessage]: the text of the phase, followed by the percentage
    and the estimate when the candidate is positive. *)
Definition progressMessage_of (w : World) (o : LoadingViewModel) : string :=
  let p := rawFraction w o in
  let base := snd (result (updateProgress_counters w o)) in
  if gtb p zero then
    base ++ asprintf " %.2lf%%" [ArgDouble (mul p hundred)]
         ++ estimateText (estimateSeconds_of (elapsed w o) p
                            (m_lastProgress o) (m_lastEstimateSeconds o))
  else base.

(** The object after a sequence of [setProgress] calls. *)
Definition after_all (values : list double) (o : LoadingViewModel) : LoadingViewModel :=
  fold_left (fun o' v => object_after (setProgress v o')) values o.

(** One step of the ratchet, seen on [m_progress] and [m_lastProgress]:
    both are kept, or the old fraction moves to [m_lastProgress] and the
    fraction goes strictly up. *)
Definition ratchet_step (o o' : LoadingViewModel) : Prop :=
  (m_progress o' = m_progress o /\ m_lastProgress o' = m_lastProgress o) \/
  (m_lastProgress o' = m_progress o /\ ltb (m_progress o) (m_progress o') = true).

(** A property of the object and the signals of a call that returns. *)
Definition after_return (P : LoadingViewModel -> list Signal -> Prop) (r : Outcome)
    : Prop :=
  match r with
  | Returns o out => P o out
  | AssertionFailed _ => True
  end.

Definition returned (r : Outcome) : bool :=
  match r with
  | Returns _ _ => true
  | AssertionFailed _ => false
  end.

(** The signals of an update. *)
Definition progress_signal (s : Signal) : bool :=
  match s with
  | syncCompleted | progressMessageChanged | progressChanged => true
  | _ => false
  end.

(** The signals that each call can emit. *)
Definition allowed_signal (c : Call) (s : Signal) : bool :=
  match c with
  | call_onSyncProgressUpdated _ _ _
  | call_onNodeSyncProgressUpdated _ _ _ => progress_signal s
  | call_onGetWalletError _ _ => progress_signal s || is_walletError s
  | call_onNodeConnectionChanged _ => false
  | call_onWalletReseted => Signal_eqb s walletReseted
  | call_setIsCreating _ => Signal_eqb s isCreatingChanged
  | call_setProgressMessage _ => Signal_eqb s progressMessageChanged
  | call_setProgress _ => Signal_eqb s progressChanged
  end.

(** The call that turns creation mode on. *)
Definition enters_creation (c : Call) : bool :=
  match c with
  | call_setIsCreating true => true
  | _ => false
  end.

(** The members that a call may write besides those of the update. *)
Definition keeps_isCreating (c : Call) : bool :=
  match c with
  | call_setIsCreating _ => false
  | _ => true
  end.

Definition keeps_wallet_counters (c : Call) : bool :=
  match c with
  | call_onSyncProgressUpdated _ _ _ => false
  | _ => true
  end.

Definition keeps_node_counters (c : Call) : bool :=
  match c with
  | call_onNodeSyncProgressUpdated _ _ _ => false
  | _ => true
  end.

End FurtherVocabulary.

(** ** Sample runs through the slots *)

Module SampleRuns.

Local Open Scope string_scope.
Local Open Scope Z_scope.

(** A run through every slot: node progress, a direct write of the
    fraction above one, a wallet report with a negative count, an error,
    and more progress. *)
Definition sample_calls : list Call :=
  [call_onNodeSyncProgressUpdated (mkWorld 1010 true) 3 10;
   call_setProgress (of_Z 3);
   call_onSyncProgressUpdated (mkWorld 1020 true) (-4) 10;
   call_onGetWalletError (mkWorld 1030 true) ConnectionRefused;
   call_setProgressMessage "Waiting";
   call_onNodeConnectionChanged true;
   call_onNodeSyncProgressUpdated (mkWorld 1040 true) 10 10;
   call_onWalletReseted;
   call_setIsCreating false].

(** The same run without its wallet report. *)
Definition sample_calls_node_only : list Call :=
  [call_onNodeSyncProgressUpdated (mkWorld 1010 true) 3 10;
   call_onGetWalletError (mkWorld 1030 true) ConnectionRefused;
   call_setProgressMessage "Waiting";
   call_onNodeSyncProgressUpdated (mkWorld 1040 true) 10 10].

End SampleRuns.

(** ** The order of doubles *)

Module DoubleOrder.

Definition le (a b : double) : Prop := leb a b = true.
Definition lt (a b : double) : Prop := ltb a b = true.

Ltac cmp_cases :=
  repeat match goal with
  | |- context [Pos.compare_cont Eq ?a ?b] =>
      change (Pos.compare_cont Eq a b) with (Pos.compare a b);
      destruct (Pos.compare_spec a b)
  | |- context [Z.compare ?a ?b] => destruct (Z.compare_spec a b)
  | H : context [Pos.compare_cont Eq ?a ?b] |- _ =>
      change (Pos.compare_cont Eq a b) with (Pos.compare a b) in H;
      destruct (Pos.compare_spec a b)
  | H : context [Z.compare ?a ?b] |- _ => destruct (Z.compare_spec a b)
  end.

Ltac order_by_cases :=
  unfold le, lt, leb, ltb, gtb, SFleb, SFltb, SFcompare;
  intros;
  repeat match goal with
  | x : double |- _ => destruct x
  | x : spec_float |- _ => destruct x
  end;
  repeat match goal with b : bool |- _ => destruct b end;
  simpl in *; try reflexivity; try discriminate;
  cmp_cases; simpl in *; subst;
  try reflexivity; try discriminate; try lia.

Lemma lt_le (a b : double) : lt a b -> le a b.
Proof. order_by_cases. Qed.

Lemma le_refl (a : double) : is_nan a = false -> le a a.
Proof.
  unfold le, leb, SFleb. destruct a as [s|s| |s m e]; simpl; try easy.
  - destruct s; reflexivity.
  - intros _. rewrite Z.compare_refl.
    change (Pos.compare_cont Eq m m) with (Pos.compare m m).
    rewrite Pos.compare_refl. destruct s; reflexivity.
Qed.

Lemma lt_irrefl (a : double) : ltb a a = false.
Proof.
  unfold ltb, SFltb. destruct a as [s|s| |s m e]; simpl; try easy.
  - destruct s; reflexivity.
  - rewrite Z.compare_refl.
    change (Pos.compare_cont Eq m m) with (Pos.compare m m).
    rewrite Pos.compare_refl. destruct s; reflexivity.
Qed.

Lemma le_trans (a b c : double) : le a b -> le b c -> le a c.
Proof. order_by_cases. Qed.

Lemma lt_trans (a b c : double) : lt a b -> lt b c -> lt a c.
Proof. order_by_cases. Qed.

Lemma le_lt_trans (a b c : double) : le a b -> lt b c -> lt a c.
Proof. order_by_cases. Qed.

Lemma lt_not_nan_l (a b : double) : lt a b -> is_nan a = false.
Proof. unfold lt, ltb, SFltb. destruct a, b; simpl; easy. Qed.

Lemma lt_not_nan_r (a b : double) : lt a b -> is_nan b = false.
Proof. unfold lt, ltb, SFltb. destruct a, b; simpl; easy. Qed.

Lemma le_not_nan_r (a b : double) : le a b -> is_nan b = false.
Proof. unfold le, leb, SFleb. destruct a, b; simpl; easy. Qed.

Lemma lt_asym (a b : double) : lt a b -> ltb b a = false.
Proof. order_by_cases. Qed.

Lemma lt_not_le (a b : double) : lt a b -> leb b a = false.
Proof. order_by_cases. Qed.

Lemma le_not_lt (a b : double) : le a b -> ltb b a = false.
Proof. order_by_cases. Qed.

Lemma in_unit_zero : in_unit zero = true.
Proof. reflexivity. Qed.

(** A candidate that is not above one keeps the ratchet in the unit
    interval, whether it is adopted or not. *)
Lemma in_unit_ratchet (current candidate : double) :
  in_unit current = true -> le candidate one ->
  in_unit (if gtb candidate current then candidate else current) = true.
Proof.
  intros Hin Hcap. destruct (gtb candidate current) eqn:E; [|exact Hin].
  unfold in_unit in *. apply andb_true_iff in Hin. destruct Hin as [H0 _].
  apply andb_true_iff. split; [|exact Hcap].
  apply lt_le. eapply le_lt_trans; [exact H0|exact E].
Qed.

(** [std::min(1., x)] is never above one, whatever [x] is (NaN included). *)
Lemma min_one_le_one (x : double) : le (min one x) one.
Proof.
  unfold min. destruct (ltb x one) eqn:E.
  - apply lt_le. exact E.
  - reflexivity.
Qed.

Lemma zero_le_one : le zero one.
Proof. reflexivity. Qed.

End DoubleOrder.

(** ** Properties of the slots *)

Section Properties.

Import DoubleOrder.
Local Open Scope string_scope.
Local Open Scope Z_scope.

Context {T : Texts}.

Ltac run_member :=
  unfold updateProgress, updateProgress_counters, getEstimateStr,
    getSecondsFromLastUpdate, setProgressMessage, setProgress,
    bind, ret, this, assign, emit, object_after, emitted, result; simpl.

Lemma counters_object (w : World) (o : LoadingViewModel) :
  object_after (updateProgress_counters w o) = o.
Proof.
  run_member.
  destruct (getRunLocalNode w && _); simpl; [reflexivity|].
  destruct (m_done o <? m_total o); reflexivity.
Qed.

Lemma counters_emitted (w : World) (o : LoadingViewModel) :
  emitted (updateProgress_counters w o) = [] \/
  emitted (updateProgress_counters w o) = [syncCompleted].
Proof.
  run_member.
  destruct (getRunLocalNode w && _); simpl; [now left|].
  destruct (m_done o <? m_total o); simpl; [now left|now right].
Qed.

(** The object after [updateProgress], field by field, and the signals. *)
Lemma updateProgress_effect (w : World) (o : LoadingViewModel) :
  let p := rawFraction w o in
  let o' := object_after (updateProgress w o) in
  m_progress o' = (if gtb p (m_progress o) then p else m_progress o) /\
  m_lastProgress o' =
    (if gtb p (m_progress o) then m_progress o else m_lastProgress o) /\
  m_lastEstimateSeconds o' =
    (if gtb p zero
     then estimateSeconds_of (elapsed w o) p (m_lastProgress o) (m_lastEstimateSeconds o)
     else m_lastEstimateSeconds o) /\
  m_lastUpdateTimestamp o' = getTimestamp w /\
  m_updateTimestamp o' = getTimestamp w /\
  m_isCreating o' = m_isCreating o /\
  (m_nodeDone o', m_nodeTotal o', m_done o', m_total o') =
    (m_nodeDone o, m_nodeTotal o, m_done o, m_total o) /\
  emitted (updateProgress w o) =
    (emitted (updateProgress_counters w o)
     ++ (if String.eqb (m_progressMessage o) (m_progressMessage o')
         then [] else [progressMessageChanged])
     ++ (if gtb p (m_progress o) then [progressChanged] else []))%list.
Proof.
  unfold rawFraction, elapsed. run_member.
  destruct (getRunLocalNode w && _); simpl;
    [|destruct (m_done o <? m_total o); simpl];
    (match goal with |- context [gtb ?p zero] => destruct (gtb p zero) eqn:Hpos end; simpl);
    (match goal with |- context [negb (String.eqb ?a ?b)] =>
       destruct (String.eqb a b) eqn:Hmsg end; simpl);
    (match goal with |- context [gtb ?p (m_progress o)] =>
       destruct (gtb p (m_progress o)) eqn:Hgt end; simpl);
    try rewrite Hmsg; try rewrite Hpos; try rewrite Hgt.
  all: repeat split; try reflexivity.
  all: rewrite String.eqb_refl; reflexivity.
Qed.

(** *** The ratchet *)

Lemma setProgress_keep (value : double) (o : LoadingViewModel) :
  gtb value (m_progress o) = false -> setProgress value o = (tt, o, []).
Proof. unfold setProgress, bind, this, ret. simpl. intros ->. reflexivity. Qed.

Lemma setProgress_adopt (value : double) (o : LoadingViewModel) :
  gtb value (m_progress o) = true ->
  setProgress value o =
    (tt, set_progress value (set_lastProgress (m_progress o) o), [progressChanged]).
Proof.
  unfold setProgress, bind, this, ret, assign, emit. simpl. intros ->. reflexivity.
Qed.

Lemma setProgress_steps_up (value : double) (o : LoadingViewModel) :
  m_progress (object_after (setProgress value o)) = m_progress o \/
  lt (m_progress o) (m_progress (object_after (setProgress value o))).
Proof.
  destruct (gtb value (m_progress o)) eqn:E.
  - right. rewrite (setProgress_adopt _ _ E). exact E.
  - left. rewrite (setProgress_keep _ _ E). reflexivity.
Qed.

Lemma setProgress_not_nan (value : double) (o : LoadingViewModel) :
  is_nan (m_progress o) = false ->
  is_nan (m_progress (object_after (setProgress value o))) = false.
Proof.
  intros H. destruct (setProgress_steps_up value o) as [E|E].
  - rewrite E. exact H.
  - exact (lt_not_nan_r _ _ E).
Qed.

Lemma observed_above (values : list double) :
  forall o, is_nan (m_progress o) = false ->
  Forall (le (m_progress o)) (observed values o).
Proof.
  induction values as [|v rest IH]; intros o Hnan; simpl.
  - constructor.
  - pose proof (setProgress_not_nan v o Hnan) as Hnan'.
    assert (Hstep : le (m_progress o) (m_progress (object_after (setProgress v o)))).
    { destruct (setProgress_steps_up v o) as [E|E].
      - rewrite E. apply le_refl. exact Hnan.
      - apply lt_le. exact E. }
    constructor.
    + exact Hstep.
    + eapply Forall_impl; [|exact (IH _ Hnan')].
      intros a Ha. eapply le_trans; eassumption.
Qed.

(** C4.  The ratchet of [setProgress]: over any sequence of calls with
    arbitrary values the fraction observed after each call never goes
    down (every observed value is below or equal to every later one); a
    call whose value is not strictly greater than the stored fraction
    changes nothing and emits nothing; a strictly greater value is
    adopted and [progressChanged] is emitted exactly once. *)
Theorem setProgress_monotone :
  (forall values o, is_nan (m_progress o) = false ->
     StronglySorted le (m_progress o :: observed values o)) /\
  (forall value o, gtb value (m_progress o) = false ->
     setProgress value o = (tt, o, [])) /\
  (forall value o, gtb value (m_progress o) = true ->
     m_progress (object_after (setProgress value o)) = value /\
     emitted (setProgress value o) = [progressChanged] /\
     fired progressChanged (emitted (setProgress value o)) = 1%nat).
Proof.
  split; [|split].
  - intros values. induction values as [|v rest IH]; intros o Hnan.
    + repeat constructor.
    + constructor.
      * exact (IH _ (setProgress_not_nan v o Hnan)).
      * exact (observed_above (v :: rest) o Hnan).
  - exact setProgress_keep.
  - intros value o E. rewrite (setProgress_adopt _ _ E). repeat split.
Qed.

(** *** The message *)

Lemma setProgressMessage_same (value : string) (o : LoadingViewModel) :
  m_progressMessage o = value -> setProgressMessage value o = (tt, o, []).
Proof.
  intros E. unfold setProgressMessage, bind, this, ret. simpl.
  apply String.eqb_eq in E. rewrite E. reflexivity.
Qed.

Lemma setProgressMessage_other (value : string) (o : LoadingViewModel) :
  m_progressMessage o <> value ->
  setProgressMessage value o =
    (tt, set_progressMessage value o, [progressMessageChanged]).
Proof.
  intros E. unfold setProgressMessage, bind, this, ret, assign, emit. simpl.
  apply String.eqb_neq in E. rewrite E. reflexivity.
Qed.

Lemma setProgressMessage_stored (value : string) (o : LoadingViewModel) :
  m_progressMessage (object_after (setProgressMessage value o)) = value.
Proof.
  destruct (String.eqb_spec (m_progressMessage o) value) as [E|E].
  - rewrite (setProgressMessage_same _ _ E). exact E.
  - rewrite (setProgressMessage_other _ _ E). reflexivity.
Qed.

(** C8.  [setProgressMessage x] on an object whose message is already
    [x] changes nothing and emits nothing; with a different message it
    stores [x] and emits [progressMessageChanged] exactly once; hence two
    calls in a row with the same [x] emit it exactly once when the first
    one changes the message, and the second call never emits. *)
Theorem setProgressMessage_dedup :
  (forall x o, m_progressMessage o = x ->
     setProgressMessage x o = (tt, o, [])) /\
  (forall x o, m_progressMessage o <> x ->
     m_progressMessage (object_after (setProgressMessage x o)) = x /\
     emitted (setProgressMessage x o) = [progressMessageChanged]) /\
  (forall x o, m_progressMessage o <> x ->
     fired progressMessageChanged (emitted (setProgressMessage_twice x o)) = 1%nat) /\
  (forall x o,
     emitted (setProgressMessage x (object_after (setProgressMessage x o))) = []).
Proof.
  assert (Hsecond : forall x o,
    setProgressMessage x (object_after (setProgressMessage x o)) =
    (tt, object_after (setProgressMessage x o), [])).
  { intros x o. apply setProgressMessage_same, setProgressMessage_stored. }
  repeat split.
  - exact setProgressMessage_same.
  - rewrite (setProgressMessage_other _ _ H). reflexivity.
  - rewrite (setProgressMessage_other _ _ H). reflexivity.
  - intros x o E. unfold setProgressMessage_twice, bind.
    pose proof (Hsecond x o) as H2. unfold object_after in H2.
    rewrite (setProgressMessage_other _ _ E) in *. simpl in H2.
    rewrite H2. reflexivity.
  - intros x o. rewrite Hsecond. reflexivity.
Qed.

(** *** The choice of the phase *)

Lemma counters_selectPhase (w : World) (o : LoadingViewModel) :
  updateProgress_counters w o =
    let '(phase, raw, isTerminal) :=
      selectPhase (getRunLocalNode w)
        (m_nodeDone o) (m_nodeTotal o) (m_done o) (m_total o) in
    ((raw, phaseText phase isTerminal (m_done o) (m_total o)), o,
     if isTerminal then [syncCompleted] else []).
Proof.
  unfold selectPhase, fraction_of. run_member.
  destruct (getRunLocalNode w && _); simpl; [reflexivity|].
  rewrite Z.leb_antisym.
  destruct (m_done o <? m_total o); reflexivity.
Qed.

Lemma rawFraction_le_one (w : World) (o : LoadingViewModel) :
  le (rawFraction w o) one.
Proof.
  unfold rawFraction. rewrite counters_selectPhase.
  unfold selectPhase, fraction_of, result.
  destruct (getRunLocalNode w && _); simpl;
    match goal with |- context [0 <? ?t] => destruct (0 <? t) end;
    first [apply min_one_le_one | exact zero_le_one].
Qed.

Lemma fired_app (s : Signal) (a b : list Signal) :
  fired s (a ++ b) = (fired s a + fired s b)%nat.
Proof. unfold fired. rewrite filter_app, length_app. reflexivity. Qed.

Lemma updateProgress_fires_syncCompleted (w : World) (o : LoadingViewModel) :
  fired syncCompleted (emitted (updateProgress w o)) =
  fired syncCompleted (emitted (updateProgress_counters w o)).
Proof.
  destruct (updateProgress_effect w o) as (_ & _ & _ & _ & _ & _ & _ & ->).
  rewrite !fired_app.
  destruct (String.eqb _ _); destruct (gtb _ _); simpl; rewrite ?Nat.add_0_r; reflexivity.
Qed.

(** C5.  The first part of [updateProgress] is the phase selection of
    the specification: with [selectPhase] applied to the local-source
    flag and the counters of the object, the candidate fraction is its
    raw fraction, the text is that of its phase, and [syncCompleted] is
    emitted by the update exactly when it says terminal (once), never in
    the downloading phase. *)
Theorem updateProgress_selectPhase (w : World) (o : LoadingViewModel) :
  let sel := selectPhase (getRunLocalNode w)
               (m_nodeDone o) (m_nodeTotal o) (m_done o) (m_total o) in
  let phase := fst (fst sel) in
  let raw := snd (fst sel) in
  let isTerminal := snd sel in
  updateProgress_counters w o =
    ((raw, phaseText phase isTerminal (m_done o) (m_total o)), o,
     if isTerminal then [syncCompleted] else []) /\
  rawFraction w o = raw /\
  fired syncCompleted (emitted (updateProgress w o)) =
    (if isTerminal then 1%nat else 0%nat) /\
  (phase = Downloading <->
     getRunLocalNode w = true /\
     (m_nodeTotal o = 0 \/ m_nodeDone o < m_nodeTotal o)) /\
  (phase = Downloading -> isTerminal = false) /\
  (phase = Scanning -> (isTerminal = true <-> m_total o <= m_done o)) /\
  raw = match phase with
        | Downloading => fraction_of (m_nodeDone o) (m_nodeTotal o)
        | Scanning => fraction_of (m_done o) (m_total o)
        end.
Proof.
  intros sel phase raw isTerminal.
  pose proof (counters_selectPhase w o) as Hc.
  pose proof (updateProgress_fires_syncCompleted w o) as Hf.
  unfold rawFraction. rewrite Hc in *. clear Hc.
  subst phase raw isTerminal sel. unfold selectPhase in *.
  destruct (getRunLocalNode w) eqn:Hl; simpl in *.
  - destruct (m_nodeTotal o =? 0) eqn:H0; simpl in *.
    + apply Z.eqb_eq in H0. repeat split; try easy. auto.
    + destruct (m_nodeDone o <? m_nodeTotal o) eqn:H1; simpl in *.
      * apply Z.ltb_lt in H1. repeat split; try easy. auto.
      * apply Z.eqb_neq in H0. apply Z.ltb_ge in H1.
        repeat split; try easy.
        -- rewrite Hf. destruct (m_total o <=? m_done o); reflexivity.
        -- intros (_ & [E|E]); [easy|lia].
        -- apply Z.leb_le.
        -- apply Z.leb_le.
  - repeat split; try easy.
    + rewrite Hf. destruct (m_total o <=? m_done o); reflexivity.
    + apply Z.leb_le.
    + apply Z.leb_le.
Qed.

(** *** The elapsed time *)

Lemma elapsed_min (w : World) (o : LoadingViewModel) :
  elapsed w o = Z.min kMaxEstimate (wrap64 (getTimestamp w - m_lastUpdateTimestamp o)).
Proof.
  unfold elapsed, getSecondsFromLastUpdate, bind, assign, this, ret, result.
  cbn [fst snd m_updateTimestamp m_lastUpdateTimestamp set_updateTimestamp].
  destruct (Z.ltb_spec kMaxEstimate (wrap64 (getTimestamp w - m_lastUpdateTimestamp o)));
    lia.
Qed.

(** C6, as the code has it.  Every update overwrites
    [m_lastUpdateTimestamp] with the current timestamp, whether or not
    the fraction advances.  The elapsed time is the difference of the two
    unsigned 64-bit timestamps, capped at 7200: when the current
    timestamp is not before the stored one, it is their difference
    clamped to [0, 7200]; there is no lower clamp, the difference of an
    earlier timestamp wraps around. *)
Theorem getSecondsFromLastUpdate_elapsed :
  (forall w o,
     result (getSecondsFromLastUpdate w o) =
     Z.min kMaxEstimate (wrap64 (getTimestamp w - m_lastUpdateTimestamp o))) /\
  (forall w o,
     0 <= m_lastUpdateTimestamp o <= getTimestamp w -> getTimestamp w < 2 ^ 64 ->
     result (getSecondsFromLastUpdate w o) =
     clamp (getTimestamp w - m_lastUpdateTimestamp o) 0 kMaxEstimate) /\
  (forall w o,
     m_lastUpdateTimestamp (object_after (getSecondsFromLastUpdate w o)) =
     getTimestamp w) /\
  (forall w o,
     m_lastUpdateTimestamp (object_after (updateProgress w o)) = getTimestamp w).
Proof.
  repeat split.
  - exact elapsed_min.
  - intros w o Hle Hlt. fold (elapsed w o). rewrite elapsed_min.
    unfold wrap64, clamp, kMaxEstimate. rewrite Z.mod_small by lia. lia.
  - intros w o. apply (updateProgress_effect w o).
Qed.

(** *** The estimate *)

Lemma getEstimateStr_stored (s : Timestamp) (progress : double) (o : LoadingViewModel) :
  m_lastEstimateSeconds (object_after (getEstimateStr s progress o)) =
  estimateSeconds_of s progress (m_lastProgress o) (m_lastEstimateSeconds o).
Proof. reflexivity. Qed.

(** C7.  The value that [getEstimateStr] stores in
    [m_lastEstimateSeconds] is the smoothing of the raw estimate
    [seconds / (progress - m_lastProgress)]: their mean when the ratio of
    the raw estimate to the stored one is above 2, the raw estimate
    otherwise; [updateProgress] stores it whenever its candidate is
    positive; and a raw estimate of 50 against a stored 10 gives 30. *)
Theorem getEstimateStr_smoothing :
  (forall s progress o,
     let raw := div (of_Z s) (sub progress (m_lastProgress o)) in
     let last := m_lastEstimateSeconds o in
     let stored := m_lastEstimateSeconds (object_after (getEstimateStr s progress o)) in
     stored = smoothed raw last /\
     (gtb (div raw last) two = true -> stored = div (add raw last) two) /\
     (gtb (div raw last) two = false -> stored = raw)) /\
  (forall w o,
     gtb (rawFraction w o) zero = true ->
     m_lastEstimateSeconds (object_after (updateProgress w o)) =
     smoothed (div (of_Z (elapsed w o)) (sub (rawFraction w o) (m_lastProgress o)))
              (m_lastEstimateSeconds o)) /\
  smoothed (of_Z 50) (of_Z 10) = of_Z 30 /\
  (forall o,
     m_lastProgress o = zero -> m_lastEstimateSeconds o = of_Z 10 ->
     div (of_Z 25) (sub (div one two) (m_lastProgress o)) = of_Z 50 /\
     m_lastEstimateSeconds (object_after (getEstimateStr 25 (div one two) o)) = of_Z 30).
Proof.
  split; [|split; [|split]].
  - intros s progress o raw last stored. subst stored.
    rewrite getEstimateStr_stored. unfold estimateSeconds_of, smoothed.
    fold raw. fold last. repeat split.
    + intros ->. reflexivity.
    + intros ->. reflexivity.
  - intros w o Hpos.
    destruct (updateProgress_effect w o) as (_ & _ & -> & _).
    rewrite Hpos. reflexivity.
  - vm_compute. reflexivity.
  - intros o Hp He. rewrite getEstimateStr_stored, Hp, He.
    split; vm_compute; reflexivity.
Qed.

(** *** Wallet errors *)

Lemma tail_fallback (w : World) (error : ErrorType) (o : LoadingViewModel) :
  error <> ConnectionAddrInUse ->
  returns (onGetWalletError_tail w error o) =
  Returns (object_after (updateProgress w o))
          (emitted (updateProgress w o) ++ [syncCompleted]).
Proof.
  intros Hne. unfold returns, onGetWalletError_tail.
  destruct error; try congruence;
    unfold bind, emit, object_after, emitted;
    destruct (updateProgress w o) as [[u o1] out1]; reflexivity.
Qed.

Lemma updateProgress_no_walletError (w : World) (o : LoadingViewModel) :
  existsb is_walletError (emitted (updateProgress w o)) = false.
Proof.
  destruct (updateProgress_effect w o) as (_ & _ & _ & _ & _ & _ & _ & ->).
  rewrite !existsb_app.
  destruct (counters_emitted w o) as [-> | ->];
    destruct (String.eqb _ _); destruct (gtb _ _); reflexivity.
Qed.

(** C10.  In creation mode, an error of one of the four kinds that the
    switch names makes [onGetWalletError] emit one [walletError] signal,
    with the text of [GetErrorString] as it is, and return: the object
    is unchanged (fraction, message, estimate state, counters) and
    nothing else is emitted, [syncCompleted] included. *)
Theorem onGetWalletError_creation_mapped
    (ndebug : bool) (w : World) (error : ErrorType) (o : LoadingViewModel) :
  m_isCreating o = true ->
  mapped_in_creation error = true ->
  onGetWalletError ndebug w error o =
    Returns o [walletError (creation_title error) (GetErrorString error)].
Proof.
  intros Hc Hm. unfold onGetWalletError. rewrite Hc.
  destruct error; try discriminate; reflexivity.
Qed.

(** C2, as the code has it.  In normal mode, an error of any kind but
    [ConnectionAddrInUse] makes [onGetWalletError] run [updateProgress]
    on the current counters and then emit the plain [syncCompleted]
    signal, last; no [walletError] is emitted. *)
Theorem onGetWalletError_normal_fallback
    (ndebug : bool) (w : World) (error : ErrorType) (o : LoadingViewModel) :
  m_isCreating o = false ->
  error <> ConnectionAddrInUse ->
  onGetWalletError ndebug w error o =
    Returns (object_after (updateProgress w o))
            (emitted (updateProgress w o) ++ [syncCompleted]) /\
  existsb is_walletError (emitted (updateProgress w o) ++ [syncCompleted]) = false.
Proof.
  intros Hc Hne. unfold onGetWalletError. rewrite Hc. split.
  - apply tail_fallback. exact Hne.
  - rewrite existsb_app, updateProgress_no_walletError. reflexivity.
Qed.

(** C3, as the code has it.  In creation mode, an error of a kind that
    the switch does not name reaches [assert(false)]: built with
    assertions, the call does not return and the process is terminated;
    built without them, the call goes on as in normal mode
    ([updateProgress], then [syncCompleted]).  No [walletError] is
    emitted in either build. *)
Theorem onGetWalletError_creation_unmapped
    (ndebug : bool) (w : World) (error : ErrorType) (o : LoadingViewModel) :
  m_isCreating o = true ->
  mapped_in_creation error = false ->
  onGetWalletError ndebug w error o =
    (if ndebug
     then Returns (object_after (updateProgress w o))
                  (emitted (updateProgress w o) ++ [syncCompleted])
     else AssertionFailed "Unsupported error code!") /\
  existsb is_walletError (emitted (updateProgress w o) ++ [syncCompleted]) = false.
Proof.
  intros Hc Hm. unfold onGetWalletError. rewrite Hc. split.
  - destruct error; try discriminate. destruct ndebug; [|reflexivity].
    apply tail_fallback. discriminate.
  - rewrite existsb_app, updateProgress_no_walletError. reflexivity.
Qed.

(** *** The unit interval *)

Lemma updateProgress_in_unit (w : World) (o : LoadingViewModel) :
  in_unit (m_progress o) = true ->
  in_unit (m_progress (object_after (updateProgress w o))) = true.
Proof.
  intros Hin. destruct (updateProgress_effect w o) as (-> & _).
  apply in_unit_ratchet; [exact Hin|apply rawFraction_le_one].
Qed.

Lemma tail_in_unit (w : World) (error : ErrorType) (o : LoadingViewModel) :
  in_unit (m_progress o) = true ->
  in_unit (m_progress (object_after (onGetWalletError_tail w error o))) = true.
Proof.
  intros Hin.
  assert (Hfall : forall o1 out,
    returns (onGetWalletError_tail w error o) = Returns o1 out ->
    object_after (onGetWalletError_tail w error o) = o1).
  { unfold returns. intros o1 out E. injection E as E _. exact E. }
  destruct error;
    match goal with
    | |- context [onGetWalletError_tail w ConnectionAddrInUse o] => exact Hin
    | |- context [onGetWalletError_tail w ?e o] =>
        assert (Hne : e <> ConnectionAddrInUse) by discriminate;
        rewrite (Hfall _ _ (tail_fallback w e o Hne));
        apply updateProgress_in_unit; exact Hin
    end.
Qed.

Lemma onSyncProgressUpdated_updateProgress (w : World) (done total : Z)
    (o : LoadingViewModel) :
  object_after (onSyncProgressUpdated w done total o) =
    object_after (updateProgress w (set_wallet done total o)) /\
  emitted (onSyncProgressUpdated w done total o) =
    emitted (updateProgress w (set_wallet done total o)).
Proof.
  unfold onSyncProgressUpdated, bind, assign, object_after, emitted.
  destruct (updateProgress w _) as [[u o1] out]. split; reflexivity.
Qed.

Lemma onNodeSyncProgressUpdated_updateProgress (w : World) (done total : Z)
    (o : LoadingViewModel) :
  object_after (onNodeSyncProgressUpdated w done total o) =
    object_after (updateProgress w (set_node done total o)) /\
  emitted (onNodeSyncProgressUpdated w done total o) =
    emitted (updateProgress w (set_node done total o)).
Proof.
  unfold onNodeSyncProgressUpdated, bind, assign, object_after, emitted.
  destruct (updateProgress w _) as [[u o1] out]. split; reflexivity.
Qed.

Lemma exec_in_unit (ndebug : bool) (c : Call) (o : LoadingViewModel) :
  candidate_capped c ->
  in_unit (m_progress o) = true ->
  fraction_in_unit (exec ndebug c o).
Proof.
  intros Hcap Hin. destruct c as [w d t|w d t|w e|b| |v|v|v];
    cbn [exec]; unfold returns; cbn [fraction_in_unit].
  - rewrite (proj1 (onSyncProgressUpdated_updateProgress w d t o)).
    exact (updateProgress_in_unit w (set_wallet d t o) Hin).
  - rewrite (proj1 (onNodeSyncProgressUpdated_updateProgress w d t o)).
    exact (updateProgress_in_unit w (set_node d t o) Hin).
  - unfold onGetWalletError. destruct (m_isCreating o).
    + destruct e; try exact Hin.
      destruct ndebug; [|exact I].
      exact (tail_in_unit w _ o Hin).
    + exact (tail_in_unit w e o Hin).
  - exact Hin.
  - exact Hin.
  - unfold setIsCreating, bind, this, ret, assign, emit, object_after. simpl.
    destruct (negb _); exact Hin.
  - unfold setProgressMessage, bind, this, ret, assign, emit, object_after. simpl.
    destruct (negb _); exact Hin.
  - simpl in Hcap.
    destruct (gtb v (m_progress o)) eqn:E.
    + rewrite (setProgress_adopt _ _ E). simpl.
      pose proof (in_unit_ratchet _ _ Hin Hcap) as H. rewrite E in H. exact H.
    + rewrite (setProgress_keep _ _ E). exact Hin.
Qed.

Lemma run_in_unit (ndebug : bool) (calls : list Call) :
  forall o, Forall candidate_capped calls ->
  in_unit (m_progress o) = true ->
  fraction_in_unit (run ndebug calls o).
Proof.
  induction calls as [|c rest IH]; intros o Hcap Hin; simpl.
  - exact Hin.
  - inversion Hcap as [|? ? Hc Hrest]; subst.
    pose proof (exec_in_unit ndebug c o Hc Hin) as Hstep.
    destruct (exec ndebug c o) as [o1 out1|what]; [|exact I].
    pose proof (IH o1 Hrest Hstep) as Hrun.
    destruct (run ndebug rest o1); [exact Hrun|exact I].
Qed.

(** C9, as the code has it.  From a new object the stored fraction stays
    in [0, 1] as long as no direct [setProgress] call has a value above
    one: the constructor sets the fraction to 0; every candidate that
    [updateProgress] computes is at most 1; a candidate below or equal to
    the stored fraction (a negative one included) is dropped by
    [setProgress]; hence after every run of such calls that returns, the
    fraction is in [0, 1].  [setProgress] itself has no upper bound: a
    direct call with a value above one on a fraction in [0, 1] is adopted
    and the fraction is then outside the interval. *)
Theorem fraction_stays_in_unit :
  (forall w lastProgress lastEstimate lastUpdate update,
     m_progress (LoadingViewModel_new w lastProgress lastEstimate lastUpdate update)
     = zero) /\
  (forall w o, leb (rawFraction w o) one = true) /\
  (forall value o, leb value (m_progress o) = true ->
     m_progress (object_after (setProgress value o)) = m_progress o) /\
  (forall ndebug calls w lastProgress lastEstimate lastUpdate update,
     Forall candidate_capped calls ->
     fraction_in_unit
       (run ndebug calls
          (LoadingViewModel_new w lastProgress lastEstimate lastUpdate update))) /\
  (forall value o,
     in_unit (m_progress o) = true ->
     gtb value one = true ->
     m_progress (object_after (setProgress value o)) = value /\
     in_unit (m_progress (object_after (setProgress value o))) = false).
Proof.
  split; [|split; [|split; [|split]]].
  - reflexivity.
  - exact rawFraction_le_one.
  - intros value o Hle. apply le_not_lt in Hle.
    rewrite (setProgress_keep value o Hle). reflexivity.
  - intros. apply run_in_unit; [assumption|exact in_unit_zero].
  - intros value o Hin Habove.
    unfold in_unit in Hin. apply andb_true_iff in Hin. destruct Hin as [_ Hcap].
    assert (Hgt : gtb value (m_progress o) = true)
      by exact (le_lt_trans _ _ _ Hcap Habove).
    rewrite (setProgress_adopt _ _ Hgt). cbn [object_after fst snd].
    split; [reflexivity|].
    unfold in_unit. cbn [m_progress set_progress].
    rewrite (lt_not_le _ _ Habove). apply andb_false_r.
Qed.

End Properties.

(** ** The properties on the sample runs *)

Section OnSamples.

Import DoubleOrder Samples.
Local Open Scope string_scope.
Local Open Scope Z_scope.

(** C1 fails as stated: after the node updates 3/10, 5/10 and 10/10 the
    stored fraction is 0.5 and [m_lastProgress] is 0.3; the wallet update
    3/10 then has the candidate 0.3, which is below the stored fraction
    and equal to [m_lastProgress].  The projection is computed all the
    same, its divisor is zero, the stored estimate becomes infinite and
    the message changes. *)
Lemma updateProgress_projects_without_advance :
  let w := mkWorld 1040 true in
  let o := scan_3_10 in
  let o' := object_after (updateProgress (T := texts) w o) in
  leb (rawFraction (T := texts) w o) (m_progress o) = true /\
  rawFraction (T := texts) w o = m_lastProgress o /\
  gtb (rawFraction (T := texts) w o) zero = true /\
  sub (rawFraction (T := texts) w o) (m_lastProgress o) = zero /\
  m_lastEstimateSeconds o' = S754_infinity false /\
  m_lastEstimateSeconds o' <> m_lastEstimateSeconds o /\
  m_progressMessage o = "" /\
  m_progressMessage o' = "Scanning UTXO 3/10 30.00% Estimate time: inf min." /\
  emitted (updateProgress (T := texts) w o) = [progressMessageChanged] /\
  onSyncProgressUpdated (T := texts) w 3 10 node_10_10 =
    updateProgress (T := texts) w o.
Proof.
  vm_compute. repeat split; discriminate.
Qed.

(** C2 fails as stated: in normal mode, with a remote wallet that has
    scanned 3 of 10, the error [NodeProtocolIncompatible] ends with the
    plain [syncCompleted] signal. *)
Lemma normal_fallback_emits_syncCompleted :
  m_isCreating remote_3_10 = false /\
  exists o',
    onGetWalletError (T := texts) false (mkWorld 1020 false)
      NodeProtocolIncompatible remote_3_10
    = Returns o' [progressMessageChanged; syncCompleted].
Proof.
  split; [reflexivity|]. eexists. vm_compute. reflexivity.
Qed.

Lemma onGetWalletError_normal_fallback_witness :
  m_isCreating remote_3_10 = false /\
  NodeProtocolIncompatible <> ConnectionAddrInUse /\
  onGetWalletError (T := texts) false (mkWorld 1020 false)
    NodeProtocolIncompatible remote_3_10
  = Returns (object_after (updateProgress (T := texts) (mkWorld 1020 false) remote_3_10))
      (emitted (updateProgress (T := texts) (mkWorld 1020 false) remote_3_10)
       ++ [syncCompleted]).
Proof.
  assert (Hc : m_isCreating remote_3_10 = false) by reflexivity.
  assert (Hne : NodeProtocolIncompatible <> ConnectionAddrInUse) by discriminate.
  split; [exact Hc|]. split; [exact Hne|].
  exact (proj1 (onGetWalletError_normal_fallback (T := texts) false
                  (mkWorld 1020 false) NodeProtocolIncompatible remote_3_10 Hc Hne)).
Defined.

(** C3 fails as stated: in creation mode an error of a kind that the
    switch does not name ends in the failed assertion, and without
    assertions in [syncCompleted]; no error is notified. *)
Lemma creation_unmapped_aborts :
  m_isCreating creating = true /\
  mapped_in_creation (OtherErrorType 3) = false /\
  onGetWalletError (T := texts) false (mkWorld 1020 true) (OtherErrorType 3) creating
  = AssertionFailed "Unsupported error code!" /\
  exists o',
    onGetWalletError (T := texts) true (mkWorld 1020 true) (OtherErrorType 3) creating
    = Returns o' [progressMessageChanged; syncCompleted].
Proof.
  repeat split. eexists. vm_compute. reflexivity.
Qed.

Lemma onGetWalletError_creation_unmapped_witness :
  m_isCreating creating = true /\
  mapped_in_creation (OtherErrorType 3) = false /\
  onGetWalletError (T := texts) false (mkWorld 1020 true) (OtherErrorType 3) creating
  = AssertionFailed "Unsupported error code!".
Proof.
  assert (Hc : m_isCreating creating = true) by reflexivity.
  assert (Hm : mapped_in_creation (OtherErrorType 3) = false) by reflexivity.
  split; [exact Hc|]. split; [exact Hm|].
  exact (proj1 (onGetWalletError_creation_unmapped (T := texts) false
                  (mkWorld 1020 true) (OtherErrorType 3) creating Hc Hm)).
Defined.

Lemma setProgress_monotone_witness :
  is_nan (m_progress fresh) = false /\
  StronglySorted le (m_progress fresh :: observed [half; quarter; one] fresh) /\
  gtb quarter (m_progress (set_progress half fresh)) = false /\
  setProgress quarter (set_progress half fresh) = (tt, set_progress half fresh, []) /\
  gtb half (m_progress fresh) = true /\
  emitted (setProgress half fresh) = [progressChanged].
Proof.
  assert (Hn : is_nan (m_progress fresh) = false) by reflexivity.
  assert (Hk : gtb quarter (m_progress (set_progress half fresh)) = false)
    by (vm_compute; reflexivity).
  assert (Ha : gtb half (m_progress fresh) = true) by (vm_compute; reflexivity).
  destruct setProgress_monotone as (Hseq & Hkeep & Hadopt).
  split; [exact Hn|]. split; [exact (Hseq _ _ Hn)|].
  split; [exact Hk|]. split; [exact (Hkeep _ _ Hk)|].
  split; [exact Ha|]. exact (proj1 (proj2 (Hadopt _ _ Ha))).
Defined.

Lemma updateProgress_selectPhase_witness :
  selectPhase true 5 10 0 0 = (Downloading, half, false) /\
  rawFraction (T := texts) (mkWorld 1010 true) (set_node 5 10 fresh) = half /\
  fired syncCompleted
    (emitted (updateProgress (T := texts) (mkWorld 1010 true) (set_node 5 10 fresh)))
  = 0%nat.
Proof.
  split; [vm_compute; reflexivity|].
  destruct (updateProgress_selectPhase (T := texts) (mkWorld 1010 true)
              (set_node 5 10 fresh)) as (_ & Hraw & Hfire & _).
  split; [exact Hraw|exact Hfire].
Defined.

(** C6 fails as stated: with the stored timestamp 10 and the current
    timestamp 5 the code returns 7200, and the clamp of the difference
    to [0, 7200] is 0. *)
Lemma elapsed_of_earlier_timestamp :
  let w := mkWorld 5 true in
  m_lastUpdateTimestamp updated_at_10 = 10 /\
  result (getSecondsFromLastUpdate w updated_at_10) = 7200 /\
  clamp (getTimestamp w - m_lastUpdateTimestamp updated_at_10) 0 kMaxEstimate = 0 /\
  result (getSecondsFromLastUpdate w updated_at_10) <>
  clamp (getTimestamp w - m_lastUpdateTimestamp updated_at_10) 0 kMaxEstimate.
Proof.
  vm_compute. repeat split; discriminate.
Qed.

Lemma getSecondsFromLastUpdate_elapsed_witness :
  let w := mkWorld 25 true in
  0 <= m_lastUpdateTimestamp updated_at_10 <= getTimestamp w /\
  getTimestamp w < 2 ^ 64 /\
  result (getSecondsFromLastUpdate w updated_at_10) =
  clamp (getTimestamp w - m_lastUpdateTimestamp updated_at_10) 0 kMaxEstimate.
Proof.
  intros w.
  assert (H1 : 0 <= m_lastUpdateTimestamp updated_at_10 <= getTimestamp w)
    by (split; intros H; discriminate H).
  assert (H2 : getTimestamp w < 2 ^ 64) by reflexivity.
  split; [exact H1|]. split; [exact H2|].
  exact (proj1 (proj2 (getSecondsFromLastUpdate_elapsed (T := texts)))
           w updated_at_10 H1 H2).
Defined.

Lemma getEstimateStr_smoothing_witness :
  m_lastProgress estimate_10 = zero /\
  m_lastEstimateSeconds estimate_10 = of_Z 10 /\
  div (of_Z 25) (sub half (m_lastProgress estimate_10)) = of_Z 50 /\
  m_lastEstimateSeconds
    (object_after (getEstimateStr (T := texts) 25 half estimate_10)) = of_Z 30.
Proof.
  assert (Hp : m_lastProgress estimate_10 = zero) by reflexivity.
  assert (He : m_lastEstimateSeconds estimate_10 = of_Z 10) by reflexivity.
  split; [exact Hp|]. split; [exact He|].
  exact (proj2 (proj2 (proj2 (getEstimateStr_smoothing (T := texts))))
           estimate_10 Hp He).
Defined.

Lemma setProgressMessage_dedup_witness :
  m_progressMessage fresh <> "Downloading blocks" /\
  fired progressMessageChanged
    (emitted (setProgressMessage_twice "Downloading blocks" fresh)) = 1%nat.
Proof.
  assert (H : m_progressMessage fresh <> "Downloading blocks") by discriminate.
  split; [exact H|].
  exact (proj1 (proj2 (proj2 setProgressMessage_dedup)) _ _ H).
Defined.

Lemma fraction_stays_in_unit_witness :
  let calls :=
    [call_onNodeSyncProgressUpdated (mkWorld 1010 true) 3 10;
     call_setProgress half;
     call_onSyncProgressUpdated (mkWorld 1020 true) (-4) 10;
     call_onGetWalletError (mkWorld 1030 true) ConnectionRefused;
     call_onNodeSyncProgressUpdated (mkWorld 1040 true) 20 10;
     call_onSyncProgressUpdated (mkWorld 1050 true) 20 10] in
  Forall candidate_capped calls /\
  fraction_in_unit (run (T := texts) true calls fresh).
Proof.
  intros calls.
  assert (H : Forall candidate_capped calls).
  { repeat constructor. }
  split; [exact H|].
  exact (proj1 (proj2 (proj2 (proj2 (fraction_stays_in_unit (T := texts)))))
           true calls (mkWorld 1000 true) zero zero 1000 1000 H).
Defined.

(** C9 fails as stated: on a new object a direct [setProgress(3.0)] is
    adopted, and the fraction is then 3, outside [0, 1]. *)
Lemma setProgress_above_one_leaves_unit :
  in_unit (m_progress fresh) = true /\
  run (T := texts) false [call_setProgress (of_Z 3)] fresh =
    Returns (set_progress (of_Z 3) (set_lastProgress zero fresh)) [progressChanged] /\
  m_progress (object_after (setProgress (of_Z 3) fresh)) = of_Z 3 /\
  in_unit (m_progress (object_after (setProgress (of_Z 3) fresh))) = false /\
  ~ fraction_in_unit (run (T := texts) false [call_setProgress (of_Z 3)] fresh).
Proof.
  repeat split. vm_compute. discriminate.
Qed.

Lemma onGetWalletError_creation_mapped_witness :
  m_isCreating creating = true /\
  mapped_in_creation ConnectionRefused = true /\
  onGetWalletError (T := texts) false (mkWorld 1020 true) ConnectionRefused creating
  = Returns creating [walletError "Connection error" "Connection is refused."].
Proof.
  assert (Hc : m_isCreating creating = true) by reflexivity.
  assert (Hm : mapped_in_creation ConnectionRefused = true) by reflexivity.
  split; [exact Hc|]. split; [exact Hm|].
  exact (onGetWalletError_creation_mapped (T := texts) false
           (mkWorld 1020 true) ConnectionRefused creating Hc Hm).
Defined.

End OnSamples.


(** ** Further properties of the slots *)

Section FurtherProperties.

Import DoubleOrder.
Local Open Scope string_scope.
Local Open Scope Z_scope.

Context {T : Texts}.

Ltac fields :=
  cbn [negb fst snd app m_progress m_nodeTotal m_nodeDone m_total m_done
       m_hasLocalNode m_isCreating m_progressMessage m_lastProgress
       m_lastEstimateSeconds m_lastUpdateTimestamp m_updateTimestamp
       set_progress set_lastProgress set_progressMessage set_isCreating
       set_lastEstimateSeconds set_lastUpdateTimestamp set_updateTimestamp
       set_wallet set_node].

Ltac members :=
  unfold updateProgress, updateProgress_counters, getEstimateStr,
    getSecondsFromLastUpdate, setProgressMessage, setProgress, setIsCreating,
    getIsCreating, onNodeConnectionChanged, onWalletReseted,
    bind, ret, this, assign, emit, object_after, emitted, result.

(** The whole object after [updateProgress]. *)
Lemma updateProgress_object (w : World) (o : LoadingViewModel) :
  let p := rawFraction w o in
  object_after (updateProgress w o) =
  set_progress (if gtb p (m_progress o) then p else m_progress o)
    (set_lastProgress (if gtb p (m_progress o) then m_progress o else m_lastProgress o)
      (set_progressMessage (progressMessage_of w o)
        (set_lastEstimateSeconds
           (if gtb p zero
            then estimateSeconds_of (elapsed w o) p
                   (m_lastProgress o) (m_lastEstimateSeconds o)
            else m_lastEstimateSeconds o)
           (set_lastUpdateTimestamp (getTimestamp w)
              (set_updateTimestamp (getTimestamp w) o))))).
Proof.
  unfold progressMessage_of, rawFraction, elapsed. members.
  destruct o as [pr nt nd tot don hl ic pm lp les lu ut]. fields.
  destruct (getRunLocalNode w && _); [|destruct (don <? tot)]; fields;
    (match goal with |- context [gtb ?p zero] => destruct (gtb p zero) end);
    fields;
    (match goal with |- context [negb (String.eqb ?a ?b)] =>
       destruct (String.eqb_spec a b) as [Hmsg|Hmsg] end);
    fields;
    (match goal with |- context [gtb ?p pr] => destruct (gtb p pr) end);
    fields; try rewrite <- Hmsg; reflexivity.
Qed.

Lemma updateProgress_ratchet_step (w : World) (o : LoadingViewModel) :
  ratchet_step o (object_after (updateProgress w o)).
Proof.
  rewrite updateProgress_object. unfold ratchet_step. fields.
  destruct (gtb (rawFraction w o) (m_progress o)) eqn:E.
  - right. split; [reflexivity|exact E].
  - left. split; reflexivity.
Qed.

Lemma setProgress_ratchet_step (value : double) (o : LoadingViewModel) :
  ratchet_step o (object_after (setProgress value o)).
Proof.
  unfold ratchet_step. destruct (gtb value (m_progress o)) eqn:E.
  - right. rewrite (setProgress_adopt _ _ E). split; [reflexivity|exact E].
  - left. rewrite (setProgress_keep _ _ E). split; reflexivity.
Qed.

Lemma ratchet_step_refl (o : LoadingViewModel) : ratchet_step o o.
Proof. left. split; reflexivity. Qed.

Lemma tail_object (w : World) (error : ErrorType) (o : LoadingViewModel) :
  object_after (onGetWalletError_tail w error o) =
  match error with
  | ConnectionAddrInUse => o
  | _ => object_after (updateProgress w o)
  end.
Proof.
  unfold onGetWalletError_tail, bind, emit, object_after.
  destruct error; try reflexivity;
    destruct (updateProgress w o) as [[u o1] out1]; reflexivity.
Qed.

Lemma tail_emitted (w : World) (error : ErrorType) (o : LoadingViewModel) :
  emitted (onGetWalletError_tail w error o) =
  match error with
  | ConnectionAddrInUse =>
      [walletError (qtTrId "loading-view-connection-error") (GetErrorString error)]
  | _ => (emitted (updateProgress w o) ++ [syncCompleted])%list
  end.
Proof.
  unfold onGetWalletError_tail, bind, emit, emitted.
  destruct error; try reflexivity;
    destruct (updateProgress w o) as [[u o1] out1]; reflexivity.
Qed.

(** Every call that returns is a step of the ratchet. *)
Lemma exec_ratchet_step (ndebug : bool) (c : Call) (o : LoadingViewModel) :
  after_return (fun o' _ => ratchet_step o o') (exec ndebug c o).
Proof.
  destruct c as [w d t|w d t|w e|b| |v|v|v];
    cbn [exec]; unfold returns; cbn [after_return].
  - rewrite (proj1 (onSyncProgressUpdated_updateProgress w d t o)).
    exact (updateProgress_ratchet_step w (set_wallet d t o)).
  - rewrite (proj1 (onNodeSyncProgressUpdated_updateProgress w d t o)).
    exact (updateProgress_ratchet_step w (set_node d t o)).
  - assert (Htail : ratchet_step o (object_after (onGetWalletError_tail w e o))).
    { rewrite tail_object.
      destruct e; first [apply ratchet_step_refl | apply updateProgress_ratchet_step]. }
    unfold onGetWalletError. destruct (m_isCreating o).
    + destruct e; try apply ratchet_step_refl.
      destruct ndebug; [exact Htail|exact I].
    + exact Htail.
  - apply ratchet_step_refl.
  - apply ratchet_step_refl.
  - members. fields. destruct (negb _); left; split; reflexivity.
  - members. fields. destruct (negb _); left; split; reflexivity.
  - apply setProgress_ratchet_step.
Qed.

Lemma ratchet_step_le (o o' : LoadingViewModel) :
  is_nan (m_progress o) = false -> ratchet_step o o' ->
  le (m_progress o) (m_progress o').
Proof.
  intros Hn [[E _]|[_ E]].
  - rewrite E. apply le_refl. exact Hn.
  - apply lt_le. exact E.
Qed.

Lemma ratchet_step_not_nan (o o' : LoadingViewModel) :
  is_nan (m_progress o) = false -> ratchet_step o o' ->
  is_nan (m_progress o') = false.
Proof.
  intros Hn Hs. exact (le_not_nan_r _ _ (ratchet_step_le o o' Hn Hs)).
Qed.

(** X1.  Over any run of calls that returns, whichever slots it is made
    of, the stored fraction at the end is not below the fraction at the
    start. *)
Theorem run_fraction_never_decreases (ndebug : bool) (calls : list Call) :
  forall o, is_nan (m_progress o) = false ->
  after_return (fun o' _ => le (m_progress o) (m_progress o')) (run ndebug calls o).
Proof.
  induction calls as [|c rest IH]; intros o Hn; cbn [run after_return].
  - apply le_refl. exact Hn.
  - pose proof (exec_ratchet_step ndebug c o) as Hstep.
    destruct (exec ndebug c o) as [o1 out1|what]; [|exact I].
    cbn [after_return] in Hstep.
    pose proof (IH o1 (ratchet_step_not_nan o o1 Hn Hstep)) as Hrest.
    destruct (run ndebug rest o1) as [o2 out2|what]; [|exact I].
    cbn [after_return] in *.
    eapply le_trans; [exact (ratchet_step_le o o1 Hn Hstep)|exact Hrest].
Qed.

(** X2.  [m_lastProgress] never exceeds [m_progress]: if it does not at
    the start of a run, it does not at its end; and a call that changes the
    fraction leaves [m_lastProgress] strictly below it. *)
Theorem lastProgress_below_progress :
  (forall ndebug calls o,
     le (m_lastProgress o) (m_progress o) ->
     after_return (fun o' _ => le (m_lastProgress o') (m_progress o'))
       (run ndebug calls o)) /\
  (forall ndebug c o,
     after_return
       (fun o' _ => m_progress o' <> m_progress o ->
                    m_lastProgress o' = m_progress o /\
                    lt (m_lastProgress o') (m_progress o'))
       (exec ndebug c o)).
Proof.
  split.
  - intros ndebug calls. induction calls as [|c rest IH]; intros o Hle;
      cbn [run after_return].
    + exact Hle.
    + pose proof (exec_ratchet_step ndebug c o) as Hstep.
      destruct (exec ndebug c o) as [o1 out1|what]; [|exact I].
      cbn [after_return] in Hstep.
      assert (Hle1 : le (m_lastProgress o1) (m_progress o1)).
      { destruct Hstep as [[E1 E2]|[E1 E2]].
        - rewrite E1, E2. exact Hle.
        - rewrite E1. apply lt_le. exact E2. }
      pose proof (IH o1 Hle1) as Hrest.
      destruct (run ndebug rest o1) as [o2 out2|what]; [|exact I].
      exact Hrest.
  - intros ndebug c o.
    pose proof (exec_ratchet_step ndebug c o) as Hstep.
    destruct (exec ndebug c o) as [o1 out1|what]; [|exact I].
    cbn [after_return] in *. intros Hne.
    destruct Hstep as [[E1 _]|[E1 E2]]; [contradiction|].
    split; [exact E1|]. unfold lt. rewrite E1. exact E2.
Qed.

Lemma not_lt_above (current value final : double) :
  ltb current value = false -> le current final -> ltb final value = false.
Proof. order_by_cases. Qed.

Lemma after_all_step (v : double) (rest : list double) (o : LoadingViewModel) :
  after_all (v :: rest) o = after_all rest (object_after (setProgress v o)).
Proof. reflexivity. Qed.

(** X3.  The fraction after a sequence of [setProgress] calls is the
    greatest value seen: it is the starting fraction or one of the values,
    it is not below the starting fraction, and no value of the sequence is
    strictly greater than it. *)
Theorem setProgress_running_maximum (values : list double) :
  forall o, is_nan (m_progress o) = false ->
  let final := m_progress (after_all values o) in
  (final = m_progress o \/ In final values) /\
  le (m_progress o) final /\
  Forall (fun v => gtb v final = false) values.
Proof.
  induction values as [|v rest IH]; intros o Hn final.
  - subst final. cbn. repeat split.
    + now left.
    + apply le_refl. exact Hn.
    + constructor.
  - subst final. rewrite after_all_step.
    set (o1 := object_after (setProgress v o)).
    pose proof (setProgress_ratchet_step v o) as Hstep. fold o1 in Hstep.
    pose proof (ratchet_step_le o o1 Hn Hstep) as Hle1.
    destruct (IH o1 (ratchet_step_not_nan o o1 Hn Hstep)) as (Hin & Hle & Hall).
    assert (Hcur : m_progress o1 = (if gtb v (m_progress o) then v else m_progress o)).
    { subst o1. destruct (gtb v (m_progress o)) eqn:E.
      - rewrite (setProgress_adopt _ _ E). reflexivity.
      - rewrite (setProgress_keep _ _ E). reflexivity. }
    repeat split.
    + destruct Hin as [E|Hin]; [|right; right; exact Hin].
      rewrite E, Hcur. destruct (gtb v (m_progress o)); [right; now left|now left].
    + eapply le_trans; eassumption.
    + constructor; [|exact Hall].
      destruct (gtb v (m_progress o)) eqn:E.
      * apply le_not_lt. rewrite <- Hcur. exact Hle.
      * unfold gtb in *. apply (not_lt_above (m_progress o)); [exact E|].
        eapply le_trans; eassumption.
Qed.

(** X4.  [setIsCreating] stores its argument, so that [getIsCreating]
    returns it afterwards, writes no other member, emits
    [isCreatingChanged] exactly when the stored flag differs from the
    argument, and a repeated call emits nothing. *)
Theorem setIsCreating_notifies_change (value : bool) (o : LoadingViewModel) :
  object_after (setIsCreating value o) = set_isCreating value o /\
  result (getIsCreating (object_after (setIsCreating value o))) = value /\
  emitted (setIsCreating value o) =
    (if Bool.eqb (m_isCreating o) value then [] else [isCreatingChanged]) /\
  emitted (setIsCreating value (object_after (setIsCreating value o))) = [].
Proof.
  members. destruct o as [pr nt nd tot don hl ic pm lp les lu ut]. fields.
  destruct ic, value; cbn; repeat split.
Qed.

(** X5.  [ConnectionAddrInUse] is handled alike in creation mode and in
    normal mode, with and without assertions: the call returns the
    unchanged object and the single signal [walletError] with the
    connection-error title and the text of [GetErrorString]; no progress
    is recomputed and no completion is signalled. *)
Theorem onGetWalletError_addr_in_use
    (ndebug : bool) (w : World) (o : LoadingViewModel) :
  onGetWalletError ndebug w ConnectionAddrInUse o =
  Returns o [walletError (qtTrId "loading-view-connection-error")
                         (GetErrorString ConnectionAddrInUse)].
Proof.
  unfold onGetWalletError. destruct (m_isCreating o); reflexivity.
Qed.

Lemma updateProgress_message (w : World) (o : LoadingViewModel) :
  m_progressMessage (object_after (updateProgress w o)) = progressMessage_of w o.
Proof. rewrite updateProgress_object. reflexivity. Qed.

(** C1, as the code has it.  When the candidate fraction of an update is
    below or equal to the stored fraction, [m_progress] and
    [m_lastProgress] keep their values and [progressChanged] is not
    emitted.  The estimate is computed before the ratchet: on every update
    whose candidate is positive, whether or not the fraction advances,
    [m_lastEstimateSeconds] is recomputed from the candidate and the
    message is rebuilt as the phase text, the percentage and the text of
    the new estimate; on an update whose candidate is not positive the
    stored estimate is kept and the message is the phase text alone.
    [progressMessageChanged] is emitted exactly when the stored message
    changes. *)
Theorem updateProgress_no_advance :
  (forall w o,
     leb (rawFraction w o) (m_progress o) = true ->
     let o' := object_after (updateProgress w o) in
     m_progress o' = m_progress o /\
     m_lastProgress o' = m_lastProgress o /\
     fired progressChanged (emitted (updateProgress w o)) = 0%nat) /\
  (forall w o,
     gtb (rawFraction w o) zero = true ->
     let o' := object_after (updateProgress w o) in
     let estimate :=
       estimateSeconds_of (elapsed w o) (rawFraction w o)
         (m_lastProgress o) (m_lastEstimateSeconds o) in
     m_lastEstimateSeconds o' = estimate /\
     m_progressMessage o' =
       snd (result (updateProgress_counters w o))
       ++ asprintf " %.2lf%%" [ArgDouble (mul (rawFraction w o) hundred)]
       ++ estimateText estimate) /\
  (forall w o,
     gtb (rawFraction w o) zero = false ->
     let o' := object_after (updateProgress w o) in
     m_lastEstimateSeconds o' = m_lastEstimateSeconds o /\
     m_progressMessage o' = snd (result (updateProgress_counters w o))) /\
  (forall w o,
     let o' := object_after (updateProgress w o) in
     fired progressMessageChanged (emitted (updateProgress w o)) =
     if String.eqb (m_progressMessage o) (m_progressMessage o')
     then 0%nat else 1%nat).
Proof.
  split; [|split; [|split]].
  - intros w o Hle o'. subst o'. apply le_not_lt in Hle.
    destruct (updateProgress_effect w o) as (Hp & Hl & _ & _ & _ & _ & _ & Hout).
    unfold gtb, ltb in *. rewrite Hle in Hp, Hl, Hout.
    repeat split; try assumption.
    rewrite Hout, !fired_app.
    destruct (counters_emitted w o) as [-> | ->];
      destruct (String.eqb _ _); reflexivity.
  - intros w o Hpos o' estimate. subst o' estimate.
    destruct (updateProgress_effect w o) as (_ & _ & He & _).
    rewrite Hpos in He. split; [exact He|].
    rewrite updateProgress_message. unfold progressMessage_of.
    rewrite Hpos. reflexivity.
  - intros w o Hnp o'. subst o'.
    destruct (updateProgress_effect w o) as (_ & _ & He & _).
    rewrite Hnp in He. split; [exact He|].
    rewrite updateProgress_message. unfold progressMessage_of.
    rewrite Hnp. reflexivity.
  - intros w o o'. subst o'.
    destruct (updateProgress_effect w o) as (_ & _ & _ & _ & _ & _ & _ & Hout).
    rewrite Hout, !fired_app.
    destruct (counters_emitted w o) as [-> | ->];
      destruct (String.eqb _ _); destruct (gtb _ _); reflexivity.
Qed.

(** X6.  The change notifications of an update are exact: it emits
    [progressChanged] once when the stored fraction changes (then upwards)
    and not at all when it stays, [progressMessageChanged] once when the
    stored message changes and not at all when it stays, [syncCompleted] at
    most once, and no other signal. *)
Theorem updateProgress_notifications_exact (w : World) (o : LoadingViewModel) :
  let o' := object_after (updateProgress w o) in
  let out := emitted (updateProgress w o) in
  ((m_progress o' = m_progress o /\ fired progressChanged out = 0%nat) \/
   (m_progress o' <> m_progress o /\ lt (m_progress o) (m_progress o') /\
    fired progressChanged out = 1%nat)) /\
  ((m_progressMessage o' = m_progressMessage o /\
    fired progressMessageChanged out = 0%nat) \/
   (m_progressMessage o' <> m_progressMessage o /\
    fired progressMessageChanged out = 1%nat)) /\
  (fired syncCompleted out <= 1)%nat /\
  forallb progress_signal out = true.
Proof.
  intros o' out. subst o' out.
  destruct (updateProgress_effect w o) as (Hp & _ & _ & _ & _ & _ & _ & Hout).
  rewrite Hout, Hp. clear Hout Hp.
  rewrite !fired_app, !forallb_app.
  set (o' := object_after (updateProgress w o)).
  assert (Hprog : forall a b : double, gtb a b = true -> a <> b).
  { intros a b E <-. unfold gtb in E. rewrite lt_irrefl in E. discriminate. }
  destruct (counters_emitted w o) as [-> | ->];
    destruct (String.eqb_spec (m_progressMessage o) (m_progressMessage o')) as [Em|Em];
    destruct (gtb (rawFraction w o) (m_progress o)) eqn:Eg;
    cbn; repeat split;
    try (left; split; [reflexivity|reflexivity]);
    try (left; split; [symmetry; exact Em|reflexivity]);
    try (right; split; [exact (Hprog _ _ Eg)|split; [exact Eg|reflexivity]]);
    try (right; split; [intros E; apply Em; symmetry; exact E|reflexivity]);
    try lia.
Qed.

(** X7.  The seconds handed to the estimate are between 0 and 7200 for
    every stored and every current timestamp, in range or not. *)
Theorem elapsed_bounds (w : World) (o : LoadingViewModel) :
  0 <= result (getSecondsFromLastUpdate w o) <= kMaxEstimate.
Proof.
  fold (elapsed w o). rewrite elapsed_min. unfold wrap64, kMaxEstimate.
  pose proof (Z.mod_pos_bound (getTimestamp w - m_lastUpdateTimestamp o) (2 ^ 64)
                ltac:(lia)).
  lia.
Qed.

(** X8.  Between two updates in a row the elapsed time depends on their
    two timestamps alone: when the second is not before the first, it is
    their difference capped at 7200, whatever the object was before and
    whatever the first update did to the fraction. *)
Theorem elapsed_between_updates (w1 w2 : World) (o : LoadingViewModel) :
  0 <= getTimestamp w1 <= getTimestamp w2 -> getTimestamp w2 < 2 ^ 64 ->
  elapsed w2 (object_after (updateProgress w1 o)) =
  Z.min kMaxEstimate (getTimestamp w2 - getTimestamp w1).
Proof.
  intros H1 H2. rewrite elapsed_min.
  destruct (updateProgress_effect w1 o) as (_ & _ & _ & -> & _).
  unfold wrap64. rewrite Z.mod_small by lia. reflexivity.
Qed.

(** X9.  In the fallback of [onGetWalletError] (normal mode, any kind but
    [ConnectionAddrInUse]) [syncCompleted] is emitted twice when the phase
    selection on the current counters is terminal, once by the update and
    once by the slot, and once otherwise. *)
Theorem fallback_syncCompleted_count
    (ndebug : bool) (w : World) (error : ErrorType) (o : LoadingViewModel) :
  m_isCreating o = false ->
  error <> ConnectionAddrInUse ->
  after_return
    (fun _ out =>
       fired syncCompleted out =
       if snd (selectPhase (getRunLocalNode w)
                 (m_nodeDone o) (m_nodeTotal o) (m_done o) (m_total o))
       then 2%nat else 1%nat)
    (onGetWalletError ndebug w error o) /\
  returned (onGetWalletError ndebug w error o) = true.
Proof.
  intros Hc Hne. unfold onGetWalletError. rewrite Hc.
  rewrite (tail_fallback w error o Hne). cbn [after_return returned].
  split; [|reflexivity].
  rewrite fired_app, updateProgress_fires_syncCompleted, counters_selectPhase.
  destruct (selectPhase _ _ _ _ _) as [[phase raw] [|]]; reflexivity.
Qed.

Lemma nonpositive_not_above (candidate current : double) :
  gtb candidate zero = false -> le zero current -> gtb candidate current = false.
Proof. unfold zero. order_by_cases. Qed.

(** X10.  A candidate that is not positive (zero, or negative from a
    negative counter) changes neither the fraction nor the estimate:
    with a stored fraction that is not negative, [m_progress],
    [m_lastProgress] and [m_lastEstimateSeconds] keep their values,
    [progressChanged] is not emitted, and the message is the text of the
    phase alone, without percentage and estimate. *)
Theorem updateProgress_nonpositive_candidate (w : World) (o : LoadingViewModel) :
  le zero (m_progress o) ->
  gtb (rawFraction w o) zero = false ->
  let o' := object_after (updateProgress w o) in
  m_progress o' = m_progress o /\
  m_lastProgress o' = m_lastProgress o /\
  m_lastEstimateSeconds o' = m_lastEstimateSeconds o /\
  m_progressMessage o' = snd (result (updateProgress_counters w o)) /\
  fired progressChanged (emitted (updateProgress w o)) = 0%nat.
Proof.
  intros H0 Hnp o'. subst o'.
  pose proof (nonpositive_not_above _ _ Hnp H0) as Hgt.
  destruct (updateProgress_effect w o) as (Hp & Hl & He & _ & _ & _ & _ & Hout).
  rewrite Hgt in Hp, Hl, Hout. rewrite Hnp in He.
  repeat split; try assumption.
  - rewrite updateProgress_message. unfold progressMessage_of.
    rewrite Hnp. reflexivity.
  - rewrite Hout, !fired_app.
    destruct (counters_emitted w o) as [-> | ->];
      destruct (String.eqb _ _); reflexivity.
Qed.

Lemma counters_of_set_wallet (w : World) (done total : Z) (o : LoadingViewModel) :
  getRunLocalNode w = true ->
  m_nodeTotal o = 0 \/ m_nodeDone o < m_nodeTotal o ->
  updateProgress_counters w (set_wallet done total o) =
  (result (updateProgress_counters w o), set_wallet done total o, []).
Proof.
  intros Hl Hn. members. fields. rewrite Hl.
  assert (E : (m_nodeTotal o =? 0) || (m_nodeDone o <? m_nodeTotal o) = true).
  { apply orb_true_iff. destruct Hn as [Hn|Hn];
      [left; apply Z.eqb_eq|right; apply Z.ltb_lt]; exact Hn. }
  rewrite E. reflexivity.
Qed.

(** X11.  While the local node is downloading (it runs, and its total is
    0 or its done count is below its total), the counters that the wallet
    reports do not count: the candidate fraction is that of the node
    counters and [syncCompleted] is not emitted, even when the wallet
    reports a finished scan. *)
Theorem downloading_ignores_wallet_counters
    (w : World) (done total : Z) (o : LoadingViewModel) :
  getRunLocalNode w = true ->
  m_nodeTotal o = 0 \/ m_nodeDone o < m_nodeTotal o ->
  rawFraction w (set_wallet done total o) = rawFraction w o /\
  rawFraction w o = fraction_of (m_nodeDone o) (m_nodeTotal o) /\
  fired syncCompleted (emitted (onSyncProgressUpdated w done total o)) = 0%nat.
Proof.
  intros Hl Hn. pose proof (counters_of_set_wallet w done total o Hl Hn) as Hc.
  repeat split.
  - unfold rawFraction. rewrite Hc. reflexivity.
  - unfold rawFraction. rewrite counters_selectPhase. unfold selectPhase.
    rewrite Hl.
    assert (E : (m_nodeTotal o =? 0) || (m_nodeDone o <? m_nodeTotal o) = true).
    { apply orb_true_iff. destruct Hn as [Hn|Hn];
        [left; apply Z.eqb_eq|right; apply Z.ltb_lt]; exact Hn. }
    rewrite E. reflexivity.
  - rewrite (proj2 (onSyncProgressUpdated_updateProgress w done total o)).
    rewrite updateProgress_fires_syncCompleted, Hc. reflexivity.
Qed.

(** X12.  Without a local node the node counters do not count: a node
    update leaves the candidate fraction that of the wallet counters, and
    emits [syncCompleted] exactly when the wallet counters are terminal. *)
Theorem remote_ignores_node_counters
    (w : World) (done total : Z) (o : LoadingViewModel) :
  getRunLocalNode w = false ->
  rawFraction w (set_node done total o) = fraction_of (m_done o) (m_total o) /\
  rawFraction w (set_node done total o) = rawFraction w o /\
  fired syncCompleted (emitted (onNodeSyncProgressUpdated w done total o)) =
    (if m_total o <=? m_done o then 1%nat else 0%nat).
Proof.
  intros Hl.
  assert (Hraw : forall o1, rawFraction w o1 = fraction_of (m_done o1) (m_total o1)).
  { intros o1. unfold rawFraction. rewrite counters_selectPhase.
    unfold selectPhase. rewrite Hl. reflexivity. }
  repeat split.
  - rewrite Hraw. reflexivity.
  - rewrite !Hraw. reflexivity.
  - rewrite (proj2 (onNodeSyncProgressUpdated_updateProgress w done total o)).
    rewrite updateProgress_fires_syncCompleted, counters_selectPhase.
    unfold selectPhase. rewrite Hl. fields. cbn [andb].
    destruct (m_total o <=? m_done o); reflexivity.
Qed.

Lemma updateProgress_signals (w : World) (o : LoadingViewModel) :
  forallb progress_signal (emitted (updateProgress w o)) = true.
Proof.
  destruct (updateProgress_effect w o) as (_ & _ & _ & _ & _ & _ & _ & ->).
  rewrite !forallb_app.
  destruct (counters_emitted w o) as [-> | ->];
    destruct (String.eqb _ _); destruct (gtb _ _); reflexivity.
Qed.

Lemma forallb_weaken (f g : Signal -> bool) (out : list Signal) :
  (forall s, f s = true -> g s = true) ->
  forallb f out = true -> forallb g out = true.
Proof.
  intros Hfg H. apply forallb_forall. intros s Hs.
  apply Hfg. exact (proj1 (forallb_forall f out) H s Hs).
Qed.

(** X13.  Each call emits only its own signals: the two progress slots
    only [syncCompleted], [progressMessageChanged] and [progressChanged];
    [onGetWalletError] these and [walletError]; the setters only their
    change signal; [onWalletReseted] only [walletReseted];
    [onNodeConnectionChanged] nothing. *)
Theorem exec_signals (ndebug : bool) (c : Call) (o : LoadingViewModel) :
  after_return (fun _ out => forallb (allowed_signal c) out = true)
    (exec ndebug c o).
Proof.
  destruct c as [w d t|w d t|w e|b| |v|v|v];
    cbn [exec]; unfold returns; cbn [after_return allowed_signal].
  - rewrite (proj2 (onSyncProgressUpdated_updateProgress w d t o)).
    apply updateProgress_signals.
  - rewrite (proj2 (onNodeSyncProgressUpdated_updateProgress w d t o)).
    apply updateProgress_signals.
  - assert (Htail : forallb (fun s => progress_signal s || is_walletError s)
                      (emitted (onGetWalletError_tail w e o)) = true).
    { rewrite tail_emitted.
      destruct e; try reflexivity;
        rewrite forallb_app; apply andb_true_iff; (split; [|reflexivity]);
        apply (forallb_weaken progress_signal); try apply updateProgress_signals;
        intros s ->; reflexivity. }
    unfold onGetWalletError. destruct (m_isCreating o).
    + destruct e; try reflexivity.
      destruct ndebug; [exact Htail|exact I].
    + exact Htail.
  - reflexivity.
  - reflexivity.
  - members. fields. destruct (negb _); reflexivity.
  - members. fields. destruct (negb _); reflexivity.
  - destruct (gtb v (m_progress o)) eqn:E.
    + rewrite (setProgress_adopt _ _ E). reflexivity.
    + rewrite (setProgress_keep _ _ E). reflexivity.
Qed.

Lemma updateProgress_frame (w : World) (o : LoadingViewModel) :
  let o' := object_after (updateProgress w o) in
  m_isCreating o' = m_isCreating o /\
  m_hasLocalNode o' = m_hasLocalNode o /\
  (m_done o', m_total o') = (m_done o, m_total o) /\
  (m_nodeDone o', m_nodeTotal o') = (m_nodeDone o, m_nodeTotal o).
Proof. cbv zeta. rewrite updateProgress_object. repeat split. Qed.

Lemma onGetWalletError_cases
    (ndebug : bool) (w : World) (error : ErrorType) (o : LoadingViewModel) :
  (exists what, onGetWalletError ndebug w error o = AssertionFailed what) \/
  (exists out, onGetWalletError ndebug w error o = Returns o out) \/
  onGetWalletError ndebug w error o = returns (onGetWalletError_tail w error o).
Proof.
  unfold onGetWalletError. destruct (m_isCreating o).
  - destruct error; try (right; left; eexists; reflexivity).
    destruct ndebug; [right; right; reflexivity|left; eexists; reflexivity].
  - right; right; reflexivity.
Qed.

(** What each call leaves alone. *)
Lemma exec_untouched (ndebug : bool) (c : Call) (o : LoadingViewModel) :
  after_return
    (fun o' _ =>
       (keeps_isCreating c = true -> m_isCreating o' = m_isCreating o) /\
       (keeps_wallet_counters c = true ->
          (m_done o', m_total o') = (m_done o, m_total o)) /\
       (keeps_node_counters c = true ->
          (m_nodeDone o', m_nodeTotal o') = (m_nodeDone o, m_nodeTotal o)) /\
       m_hasLocalNode o' = m_hasLocalNode o)
    (exec ndebug c o).
Proof.
  destruct c as [w d t|w d t|w e|b| |v|v|v];
    cbn [exec]; unfold returns;
    cbn [after_return keeps_isCreating keeps_wallet_counters keeps_node_counters].
  - rewrite (proj1 (onSyncProgressUpdated_updateProgress w d t o)).
    destruct (updateProgress_frame w (set_wallet d t o)) as (H1 & H2 & H3 & H4).
    repeat split; try discriminate; intros; assumption.
  - rewrite (proj1 (onNodeSyncProgressUpdated_updateProgress w d t o)).
    destruct (updateProgress_frame w (set_node d t o)) as (H1 & H2 & H3 & H4).
    repeat split; try discriminate; intros; assumption.
  - assert (Htail :
      let o' := object_after (onGetWalletError_tail w e o) in
      m_isCreating o' = m_isCreating o /\
      m_hasLocalNode o' = m_hasLocalNode o /\
      (m_done o', m_total o') = (m_done o, m_total o) /\
      (m_nodeDone o', m_nodeTotal o') = (m_nodeDone o, m_nodeTotal o)).
    { cbv zeta. rewrite tail_object.
      destruct e; first [apply updateProgress_frame | repeat split]. }
    cbv zeta in Htail. destruct Htail as (H1 & H2 & H3 & H4).
    destruct (onGetWalletError_cases ndebug w e o) as [[what ->]|[[out ->]| ->]];
      unfold returns; cbn [after_return].
    + exact I.
    + repeat split.
    + repeat split; intros; assumption.
  - repeat split.
  - repeat split.
  - members. fields. destruct (negb _); repeat split; discriminate.
  - members. fields. destruct (negb _); repeat split.
  - destruct (gtb v (m_progress o)) eqn:E.
    + rewrite (setProgress_adopt _ _ E). repeat split.
    + rewrite (setProgress_keep _ _ E). repeat split.
Qed.

(** X14.  What a run leaves alone: [m_isCreating] is as before when
    the run has no [setIsCreating] call, the wallet counters when it has
    no [onSyncProgressUpdated] call, the node counters when it has no
    [onNodeSyncProgressUpdated] call, and [m_hasLocalNode] after every
    run: no slot writes it. *)
Theorem run_frame (ndebug : bool) (calls : list Call) :
  forall o,
  after_return
    (fun o' _ =>
       (forallb keeps_isCreating calls = true -> m_isCreating o' = m_isCreating o) /\
       (forallb keeps_wallet_counters calls = true ->
          (m_done o', m_total o') = (m_done o, m_total o)) /\
       (forallb keeps_node_counters calls = true ->
          (m_nodeDone o', m_nodeTotal o') = (m_nodeDone o, m_nodeTotal o)) /\
       m_hasLocalNode o' = m_hasLocalNode o)
    (run ndebug calls o).
Proof.
  induction calls as [|c rest IH]; intros o; cbn [run after_return forallb].
  - repeat split.
  - pose proof (exec_untouched ndebug c o) as Hstep.
    destruct (exec ndebug c o) as [o1 out1|what]; [|exact I].
    cbn [after_return] in Hstep. destruct Hstep as (S1 & S2 & S3 & S4).
    specialize (IH o1).
    destruct (run ndebug rest o1) as [o2 out2|what]; [|exact I].
    cbn [after_return] in *. destruct IH as (R1 & R2 & R3 & R4).
    repeat split.
    + intros H. apply andb_true_iff in H. destruct H as [Hc Hr].
      rewrite (R1 Hr). exact (S1 Hc).
    + intros H. apply andb_true_iff in H. destruct H as [Hc Hr].
      rewrite (R2 Hr). exact (S2 Hc).
    + intros H. apply andb_true_iff in H. destruct H as [Hc Hr].
      rewrite (R3 Hr). exact (S3 Hc).
    + rewrite R4. exact S4.
Qed.

Lemma onGetWalletError_returns_unless
    (ndebug : bool) (w : World) (error : ErrorType) (o : LoadingViewModel) :
  m_isCreating o = false \/ ndebug = true ->
  returned (onGetWalletError ndebug w error o) = true.
Proof.
  unfold onGetWalletError, returns.
  destruct (m_isCreating o); destruct error; destruct ndebug;
    intros [H|H]; try discriminate; reflexivity.
Qed.

(** X15.  [onGetWalletError] fails its assertion exactly in creation
    mode, for an error kind that the switch does not name, in a build with
    assertions; in every other case it returns. *)
Theorem onGetWalletError_aborts_iff
    (ndebug : bool) (w : World) (error : ErrorType) (o : LoadingViewModel) :
  returned (onGetWalletError ndebug w error o) = false <->
  m_isCreating o = true /\ mapped_in_creation error = false /\ ndebug = false.
Proof.
  unfold onGetWalletError, returns.
  destruct (m_isCreating o); destruct error; destruct ndebug;
    cbn [returned mapped_in_creation]; split;
    try discriminate; try (intros (_ & H1 & H2); discriminate);
    try (intros (H1 & _); discriminate); repeat split.
Qed.

(** X16.  An object in normal mode stays in normal mode and no call on
    it fails an assertion, for every run of calls that does not call
    [setIsCreating(true)]; built without assertions, every run returns. *)
Theorem normal_mode_never_aborts :
  (forall calls o,
     m_isCreating o = false ->
     forallb (fun c => negb (enters_creation c)) calls = true ->
     returned (run false calls o) = true /\
     after_return (fun o' _ => m_isCreating o' = false) (run false calls o)) /\
  (forall calls o, returned (run true calls o) = true).
Proof.
  split.
  - intros calls. induction calls as [|c rest IH]; intros o Hc Hcalls;
      cbn [run returned after_return].
    + split; [reflexivity|exact Hc].
    + cbn [forallb] in Hcalls. apply andb_true_iff in Hcalls.
      destruct Hcalls as [Hthis Hrest].
      assert (Hstep : returned (exec false c o) = true /\
                      after_return (fun o' _ => m_isCreating o' = false)
                        (exec false c o)).
      { pose proof (exec_untouched false c o) as Hf.
        destruct c as [w d t|w d t|w e|b| |v|v|v];
          try (cbn [exec] in *; unfold returns in *;
               cbn [after_return returned keeps_isCreating] in *;
               destruct Hf as (Hf & _);
               split; [reflexivity|rewrite (Hf eq_refl); exact Hc]).
        - cbn [exec] in *.
          pose proof (onGetWalletError_returns_unless false w e o (or_introl Hc))
            as Hr.
          destruct (onGetWalletError false w e o); [|discriminate].
          cbn [after_return keeps_isCreating] in *.
          destruct Hf as (Hf & _).
          split; [reflexivity|rewrite (Hf eq_refl); exact Hc].
        - destruct v; [discriminate|].
          cbn [exec]. unfold returns. cbn [after_return returned].
          split; [reflexivity|].
          members. fields. rewrite Hc. cbn. exact Hc. }
      destruct Hstep as [Hret Hmode].
      destruct (exec false c o) as [o1 out1|what]; [|discriminate].
      cbn [after_return] in Hmode.
      destruct (IH o1 Hmode Hrest) as [Hret' Hmode'].
      destruct (run false rest o1) as [o2 out2|what]; [|discriminate].
      split; [reflexivity|exact Hmode'].
  - intros calls. induction calls as [|c rest IH]; intros o; cbn [run returned].
    + reflexivity.
    + assert (Hstep : returned (exec true c o) = true).
      { destruct c; try reflexivity. cbn [exec].
        apply onGetWalletError_returns_unless. right. reflexivity. }
      destruct (exec true c o) as [o1 out1|what]; [|discriminate].
      specialize (IH o1).
      destruct (run true rest o1); [reflexivity|discriminate].
Qed.

(** X17.  A wallet update with nothing to scan (a total that is not
    positive and not above the done count), on an object without a local
    node whose fraction is not negative, completes at once: it emits
    [syncCompleted], first; the message becomes empty; the fraction and the
    estimate keep their values. *)
Theorem scan_of_nothing_completes
    (w : World) (done total : Z) (o : LoadingViewModel) :
  getRunLocalNode w = false ->
  total <= 0 -> total <= done ->
  le zero (m_progress o) ->
  let r := onSyncProgressUpdated w done total o in
  emitted r =
    syncCompleted ::
    (if String.eqb (m_progressMessage o) "" then [] else [progressMessageChanged]) /\
  m_progressMessage (object_after r) = "" /\
  m_progress (object_after r) = m_progress o /\
  m_lastEstimateSeconds (object_after r) = m_lastEstimateSeconds o.
Proof.
  intros Hl Ht Hd H0 r. subst r.
  destruct (onSyncProgressUpdated_updateProgress w done total o) as [-> ->].
  set (o1 := set_wallet done total o).
  assert (Hc : updateProgress_counters w o1 = ((zero, ""), o1, [syncCompleted])).
  { rewrite counters_selectPhase. unfold selectPhase, fraction_of. rewrite Hl.
    subst o1. fields. cbn [andb].
    destruct (Z.ltb_spec 0 total); [lia|].
    destruct (Z.leb_spec total done); [reflexivity|lia]. }
  assert (Hraw : rawFraction w o1 = zero).
  { unfold rawFraction. rewrite Hc. reflexivity. }
  assert (Hnp : gtb (rawFraction w o1) zero = false) by (rewrite Hraw; reflexivity).
  assert (Hmsg : m_progressMessage (object_after (updateProgress w o1)) = "").
  { rewrite updateProgress_message. unfold progressMessage_of.
    rewrite Hnp, Hc. reflexivity. }
  pose proof (nonpositive_not_above _ _ Hnp H0) as Hgt.
  destruct (updateProgress_effect w o1) as (Hp & _ & He & _ & _ & _ & _ & Hout).
  change (m_progress o1) with (m_progress o) in *.
  rewrite Hgt in Hp, Hout. rewrite Hnp in He.
  repeat split; try assumption.
  rewrite Hout, Hc, Hmsg. cbn [emitted snd app].
  change (m_progressMessage o1) with (m_progressMessage o).
  destruct (String.eqb (m_progressMessage o) ""); reflexivity.
Qed.

Lemma not_positive_not_above_minute (e : double) :
  gtb e zero = false -> gtb e kSecondsInMinute = false.
Proof.
  intros H. destruct (gtb e kSecondsInMinute) eqn:E; [|reflexivity].
  assert (H0 : lt zero kSecondsInMinute) by reflexivity.
  pose proof (lt_trans _ _ _ H0 E) as Hlt.
  unfold gtb, lt, ltb in *. congruence.
Qed.

(** X18.  An estimate that is not positive (zero, negative or NaN) is
    shown as one second: the text is the estimate template around the
    value 1 and the unit of seconds. *)
Theorem estimateText_of_nonpositive (e : double) :
  gtb e zero = false ->
  estimateText e =
  " " ++ asprintf (qtTrId "loading-view-estimate-time")
           [ArgStr (asprintf "%.0lf %s"
                      [ArgDouble one; ArgStr (qtTrId "loading-view-estimate-seconds")])].
Proof.
  intros H. unfold estimateText.
  rewrite (not_positive_not_above_minute e H), H. reflexivity.
Qed.

Lemma rawFraction_of_counters (w : World) (o : LoadingViewModel) :
  rawFraction w o =
  snd (fst (selectPhase (getRunLocalNode w)
              (m_nodeDone o) (m_nodeTotal o) (m_done o) (m_total o))).
Proof.
  unfold rawFraction. rewrite counters_selectPhase.
  destruct (selectPhase _ _ _ _ _) as [[phase raw] t]. reflexivity.
Qed.

(** X19.  A report that is repeated is silent on the fraction: when the
    wallet reports the same counters twice in a row, with the local-node
    setting unchanged, the second call emits no [progressChanged] and
    leaves the fraction and [m_lastProgress] as the first call left them. *)
Theorem repeated_report_keeps_fraction
    (w1 w2 : World) (done total : Z) (o : LoadingViewModel) :
  getRunLocalNode w1 = getRunLocalNode w2 ->
  let o1 := object_after (onSyncProgressUpdated w1 done total o) in
  let r2 := onSyncProgressUpdated w2 done total o1 in
  fired progressChanged (emitted r2) = 0%nat /\
  m_progress (object_after r2) = m_progress o1 /\
  m_lastProgress (object_after r2) = m_lastProgress o1.
Proof.
  intros Hl o1 r2. subst r2.
  destruct (onSyncProgressUpdated_updateProgress w2 done total o1) as [-> ->].
  set (o' := set_wallet done total o1).
  assert (Ho1 : o1 = object_after (updateProgress w1 (set_wallet done total o))).
  { subst o1. apply onSyncProgressUpdated_updateProgress. }
  assert (Hraw : rawFraction w2 o' = rawFraction w1 (set_wallet done total o)).
  { rewrite !rawFraction_of_counters, <- Hl. subst o'. fields.
    destruct (updateProgress_frame w1 (set_wallet done total o))
      as (_ & _ & _ & Hnode).
    rewrite <- Ho1 in Hnode. injection Hnode as -> ->. reflexivity. }
  assert (Hcur : m_progress o' =
                 (if gtb (rawFraction w2 o') (m_progress o)
                  then rawFraction w2 o' else m_progress o)).
  { rewrite Hraw. subst o'. fields. rewrite Ho1.
    apply (updateProgress_effect w1 (set_wallet done total o)). }
  assert (Hgt : gtb (rawFraction w2 o') (m_progress o') = false).
  { rewrite Hcur. destruct (gtb (rawFraction w2 o') (m_progress o)) eqn:E.
    - apply lt_irrefl.
    - exact E. }
  destruct (updateProgress_effect w2 o') as (Hp & Hlp & _ & _ & _ & _ & _ & Hout).
  rewrite Hgt in Hp, Hlp, Hout.
  repeat split.
  - rewrite Hout, !fired_app.
    destruct (counters_emitted w2 o') as [-> | ->];
      destruct (String.eqb _ _); reflexivity.
  - exact Hp.
  - exact Hlp.
Qed.

End FurtherProperties.

(** ** The further properties on the sample runs *)

Section FurtherOnSamples.

Import DoubleOrder Samples SampleRuns.
Local Open Scope string_scope.
Local Open Scope Z_scope.

Lemma run_fraction_never_decreases_witness :
  is_nan (m_progress fresh) = false /\
  after_return (fun o' _ => le (m_progress fresh) (m_progress o'))
    (run (T := texts) false sample_calls fresh).
Proof.
  assert (H : is_nan (m_progress fresh) = false) by reflexivity.
  split; [exact H|].
  exact (run_fraction_never_decreases (T := texts) false sample_calls fresh H).
Defined.

Lemma lastProgress_below_progress_witness :
  le (m_lastProgress fresh) (m_progress fresh) /\
  after_return (fun o' _ => le (m_lastProgress o') (m_progress o'))
    (run (T := texts) false sample_calls fresh).
Proof.
  assert (H : le (m_lastProgress fresh) (m_progress fresh)) by reflexivity.
  split; [exact H|].
  exact (proj1 (lastProgress_below_progress (T := texts)) false sample_calls fresh H).
Defined.

Lemma setProgress_running_maximum_witness :
  is_nan (m_progress fresh) = false /\
  le (m_progress fresh) (m_progress (after_all [half; S754_nan; one; quarter] fresh)) /\
  Forall (fun v => gtb v (m_progress (after_all [half; S754_nan; one; quarter] fresh))
                   = false)
    [half; S754_nan; one; quarter].
Proof.
  assert (H : is_nan (m_progress fresh) = false) by reflexivity.
  split; [exact H|].
  exact (proj2 (setProgress_running_maximum [half; S754_nan; one; quarter] fresh H)).
Defined.

Lemma elapsed_between_updates_witness :
  let w1 := mkWorld 1010 true in
  let w2 := mkWorld 1025 true in
  0 <= getTimestamp w1 <= getTimestamp w2 /\
  getTimestamp w2 < 2 ^ 64 /\
  elapsed w2 (object_after (updateProgress (T := texts) w1 updated_at_10)) =
  Z.min kMaxEstimate (getTimestamp w2 - getTimestamp w1).
Proof.
  intros w1 w2.
  assert (H1 : 0 <= getTimestamp w1 <= getTimestamp w2)
    by (split; intros H; discriminate H).
  assert (H2 : getTimestamp w2 < 2 ^ 64) by reflexivity.
  split; [exact H1|]. split; [exact H2|].
  exact (elapsed_between_updates (T := texts) w1 w2 updated_at_10 H1 H2).
Defined.

Lemma fallback_syncCompleted_count_witness :
  let w := mkWorld 1020 false in
  let done := set_wallet 10 10 remote_3_10 in
  m_isCreating done = false /\
  NodeProtocolIncompatible <> ConnectionAddrInUse /\
  after_return (fun _ out => fired syncCompleted out = 2%nat)
    (onGetWalletError (T := texts) false w NodeProtocolIncompatible done).
Proof.
  intros w done.
  assert (Hc : m_isCreating done = false) by reflexivity.
  assert (Hne : NodeProtocolIncompatible <> ConnectionAddrInUse) by discriminate.
  split; [exact Hc|]. split; [exact Hne|].
  exact (proj1 (fallback_syncCompleted_count (T := texts) false w
                  NodeProtocolIncompatible done Hc Hne)).
Defined.

Lemma updateProgress_nonpositive_candidate_witness :
  let w := mkWorld 1020 false in
  let o := set_wallet (-4) 10 remote_3_10 in
  le zero (m_progress o) /\
  gtb (rawFraction (T := texts) w o) zero = false /\
  m_progress (object_after (updateProgress (T := texts) w o)) = m_progress o /\
  m_lastEstimateSeconds (object_after (updateProgress (T := texts) w o)) =
    m_lastEstimateSeconds o.
Proof.
  intros w o.
  assert (H0 : le zero (m_progress o)) by (vm_compute; reflexivity).
  assert (Hn : gtb (rawFraction (T := texts) w o) zero = false)
    by (vm_compute; reflexivity).
  split; [exact H0|]. split; [exact Hn|].
  destruct (updateProgress_nonpositive_candidate (T := texts) w o H0 Hn)
    as (H1 & _ & H3 & _).
  split; [exact H1|exact H3].
Defined.

Lemma downloading_ignores_wallet_counters_witness :
  let w := mkWorld 1030 true in
  getRunLocalNode w = true /\
  (m_nodeTotal node_5_10 = 0 \/ m_nodeDone node_5_10 < m_nodeTotal node_5_10) /\
  rawFraction (T := texts) w (set_wallet 10 10 node_5_10) =
    rawFraction (T := texts) w node_5_10 /\
  fired syncCompleted
    (emitted (onSyncProgressUpdated (T := texts) w 10 10 node_5_10)) = 0%nat.
Proof.
  intros w.
  assert (Hl : getRunLocalNode w = true) by reflexivity.
  assert (Hn : m_nodeTotal node_5_10 = 0 \/ m_nodeDone node_5_10 < m_nodeTotal node_5_10)
    by (right; reflexivity).
  split; [exact Hl|]. split; [exact Hn|].
  destruct (downloading_ignores_wallet_counters (T := texts) w 10 10 node_5_10 Hl Hn)
    as (H1 & _ & H3).
  split; [exact H1|exact H3].
Defined.

Lemma remote_ignores_node_counters_witness :
  let w := mkWorld 1020 false in
  getRunLocalNode w = false /\
  rawFraction (T := texts) w (set_node 7 10 remote_3_10) =
    rawFraction (T := texts) w remote_3_10.
Proof.
  intros w.
  assert (Hl : getRunLocalNode w = false) by reflexivity.
  split; [exact Hl|].
  exact (proj1 (proj2 (remote_ignores_node_counters (T := texts) w 7 10 remote_3_10 Hl))).
Defined.

Lemma run_frame_witness :
  forallb keeps_wallet_counters sample_calls_node_only = true /\
  after_return (fun o' _ => (m_done o', m_total o') = (m_done fresh, m_total fresh))
    (run (T := texts) false sample_calls_node_only fresh).
Proof.
  assert (H : forallb keeps_wallet_counters sample_calls_node_only = true)
    by reflexivity.
  split; [exact H|].
  pose proof (run_frame (T := texts) false sample_calls_node_only fresh) as Hf.
  destruct (run (T := texts) false sample_calls_node_only fresh) as [o' out|what];
    [|exact I].
  exact (proj1 (proj2 Hf) H).
Defined.

Lemma onGetWalletError_aborts_iff_witness :
  (m_isCreating creating = true /\
   mapped_in_creation (OtherErrorType 3) = false /\ false = false) /\
  returned (onGetWalletError (T := texts) false (mkWorld 1020 true)
              (OtherErrorType 3) creating) = false.
Proof.
  assert (H : m_isCreating creating = true /\
              mapped_in_creation (OtherErrorType 3) = false /\ false = false)
    by (repeat split).
  split; [exact H|].
  exact (proj2 (onGetWalletError_aborts_iff (T := texts) false (mkWorld 1020 true)
                  (OtherErrorType 3) creating) H).
Defined.

Lemma normal_mode_never_aborts_witness :
  m_isCreating fresh = false /\
  forallb (fun c => negb (enters_creation c)) sample_calls = true /\
  returned (run (T := texts) false sample_calls fresh) = true.
Proof.
  assert (Hc : m_isCreating fresh = false) by reflexivity.
  assert (Hs : forallb (fun c => negb (enters_creation c)) sample_calls = true)
    by reflexivity.
  split; [exact Hc|]. split; [exact Hs|].
  exact (proj1 (proj1 (normal_mode_never_aborts (T := texts)) sample_calls fresh Hc Hs)).
Defined.

Lemma scan_of_nothing_completes_witness :
  let w := mkWorld 1010 false in
  getRunLocalNode w = false /\
  0 <= 0 /\
  le zero (m_progress fresh_remote) /\
  emitted (onSyncProgressUpdated (T := texts) w 0 0 fresh_remote) = [syncCompleted] /\
  m_progressMessage (object_after (onSyncProgressUpdated (T := texts) w 0 0 fresh_remote))
  = "".
Proof.
  intros w.
  assert (Hl : getRunLocalNode w = false) by reflexivity.
  assert (Hz : 0 <= 0) by (intros H; discriminate H).
  assert (H0 : le zero (m_progress fresh_remote)) by reflexivity.
  split; [exact Hl|]. split; [exact Hz|]. split; [exact H0|].
  destruct (scan_of_nothing_completes (T := texts) w 0 0 fresh_remote Hl Hz Hz H0)
    as (H1 & H2 & _).
  split; [exact H1|exact H2].
Defined.

Lemma estimateText_of_nonpositive_witness :
  gtb (of_Z (-20)) zero = false /\
  estimateText (T := texts) (of_Z (-20)) = " Estimate time: 1 sec.".
Proof.
  assert (H : gtb (of_Z (-20)) zero = false) by (vm_compute; reflexivity).
  split; [exact H|].
  exact (estimateText_of_nonpositive (T := texts) (of_Z (-20)) H).
Defined.

Lemma repeated_report_keeps_fraction_witness :
  let w1 := mkWorld 1010 false in
  let w2 := mkWorld 1020 false in
  getRunLocalNode w1 = getRunLocalNode w2 /\
  fired progressChanged
    (emitted (onSyncProgressUpdated (T := texts) w2 3 10
                (object_after (onSyncProgressUpdated (T := texts) w1 3 10 fresh_remote))))
  = 0%nat.
Proof.
  intros w1 w2.
  assert (H : getRunLocalNode w1 = getRunLocalNode w2) by reflexivity.
  split; [exact H|].
  exact (proj1 (repeated_report_keeps_fraction (T := texts) w1 w2 3 10 fresh_remote H)).
Defined.

Lemma updateProgress_no_advance_witness :
  let w := mkWorld 1040 true in
  let o := scan_3_10 in
  let o' := object_after (updateProgress (T := texts) w o) in
  leb (rawFraction (T := texts) w o) (m_progress o) = true /\
  gtb (rawFraction (T := texts) w o) zero = true /\
  m_progress o' = m_progress o /\
  m_lastProgress o' = m_lastProgress o /\
  fired progressChanged (emitted (updateProgress (T := texts) w o)) = 0%nat /\
  m_lastEstimateSeconds o' =
    estimateSeconds_of (elapsed w o) (rawFraction (T := texts) w o)
      (m_lastProgress o) (m_lastEstimateSeconds o) /\
  m_progressMessage o' =
    snd (result (updateProgress_counters (T := texts) w o))
    ++ asprintf (Texts := texts) " %.2lf%%"
         [ArgDouble (mul (rawFraction (T := texts) w o) hundred)]
    ++ estimateText (T := texts)
         (estimateSeconds_of (elapsed w o) (rawFraction (T := texts) w o)
            (m_lastProgress o) (m_lastEstimateSeconds o)).
Proof.
  intros w o o'.
  assert (H : leb (rawFraction (T := texts) w o) (m_progress o) = true)
    by (vm_compute; reflexivity).
  assert (Hpos : gtb (rawFraction (T := texts) w o) zero = true)
    by (vm_compute; reflexivity).
  split; [exact H|]. split; [exact Hpos|].
  destruct (updateProgress_no_advance (T := texts)) as (Hkeep & Hest & _).
  destruct (Hkeep w o H) as (H1 & H2 & H3).
  destruct (Hest w o Hpos) as (H4 & H5).
  repeat split; assumption.
Defined.

End FurtherOnSamples.
